(** * LeverX courses: the REST views of [leverxcourses/main/views.py]

    The module declares ten class-based views over five models.  Every view
    scopes its queryset with one [Model.objects.filter(<lookup>=request.user)]
    and delegates to the generic list / create / retrieve / update / destroy
    operations of the REST framework.  This development embeds

    - the store: one table per model with the sequence of its keys, and the
      course membership relation,
    - the ORM calls the views make (lookup paths split on the separator,
      joins along foreign keys, insert / update / delete),
    - the generic operations and the request dispatch of the framework, and
    - the ten views exactly as the module configures them,

    and proves the properties of the API contract about them. *)

From Stdlib Require Import ZArith Lia String Ascii.
From stdpp Require Import base option list gmap fin_maps sets strings pretty.

Local Open Scope string_scope.
Local Open Scope Z_scope.

(** ** Models and rows *)

(** [from .models import Course, Lecture, LectureTask, TaskControl, TaskComments] *)
Inductive Model := Course | Lecture | LectureTask | TaskControl | TaskComments.

#[global] Instance Model_eq_dec : EqDecision Model.
Proof. solve_decision. Defined.

(** A parsed request body, a validated payload and a serialized
    representation are all flat objects: field name to value. *)
Abbreviation Data := (gmap string string).

(** A stored row: the foreign key to the parent row (a course has none) and
    the remaining columns. *)
Record Row := mkRow { row_fk : option Z; row_attrs : Data }.

Inductive Field :=
  | ForeignKey (to : Model)
  | ManyToManyUsers.

(** Modelled from the spec: [models.py] is not among the sources.  The data
    model gives each entity one parent ("Lecture belongs to one Course",
    "LectureTask belongs to one Lecture", "TaskControl belongs to one
    LectureTask", "TaskComments belongs to one TaskControl") and gives Course
    a many-to-many membership; the relation names are the ones the lookups
    of the views go through. *)
Definition get_field (m : Model) (name : string) : option Field :=
  match m with
  | Course => if String.eqb name "users" then Some ManyToManyUsers else None
  | Lecture => if String.eqb name "course" then Some (ForeignKey Course) else None
  | LectureTask => if String.eqb name "lecture" then Some (ForeignKey Lecture) else None
  | TaskControl => if String.eqb name "task" then Some (ForeignKey LectureTask) else None
  | TaskComments =>
      if String.eqb name "taskcontrol" then Some (ForeignKey TaskControl) else None
  end.

(** ** The store *)

(** The last key the auto-increment column of each table handed out. *)
Record Sequences := mkSequences {
  course_seq : Z;
  lecture_seq : Z;
  lecturetask_seq : Z;
  taskcontrol_seq : Z;
  taskcomments_seq : Z
}.

Record Database := mkDatabase {
  course_table : gmap Z Row;
  lecture_table : gmap Z Row;
  lecturetask_table : gmap Z Row;
  taskcontrol_table : gmap Z Row;
  taskcomments_table : gmap Z Row;
  (** the through table of [Course.users]: pairs (course pk, user pk) *)
  course_users : gset (Z * Z);
  sequences : Sequences
}.

Definition table (m : Model) (db : Database) : gmap Z Row :=
  match m with
  | Course => course_table db
  | Lecture => lecture_table db
  | LectureTask => lecturetask_table db
  | TaskControl => taskcontrol_table db
  | TaskComments => taskcomments_table db
  end.

Definition set_table (m : Model) (t : gmap Z Row) (db : Database) : Database :=
  match m with
  | Course =>
      mkDatabase t (lecture_table db) (lecturetask_table db) (taskcontrol_table db)
        (taskcomments_table db) (course_users db) (sequences db)
  | Lecture =>
      mkDatabase (course_table db) t (lecturetask_table db) (taskcontrol_table db)
        (taskcomments_table db) (course_users db) (sequences db)
  | LectureTask =>
      mkDatabase (course_table db) (lecture_table db) t (taskcontrol_table db)
        (taskcomments_table db) (course_users db) (sequences db)
  | TaskControl =>
      mkDatabase (course_table db) (lecture_table db) (lecturetask_table db) t
        (taskcomments_table db) (course_users db) (sequences db)
  | TaskComments =>
      mkDatabase (course_table db) (lecture_table db) (lecturetask_table db)
        (taskcontrol_table db) t (course_users db) (sequences db)
  end.

Definition set_course_users (s : gset (Z * Z)) (db : Database) : Database :=
  mkDatabase (course_table db) (lecture_table db) (lecturetask_table db)
    (taskcontrol_table db) (taskcomments_table db) s (sequences db).

Definition sequence (m : Model) (db : Database) : Z :=
  match m with
  | Course => course_seq (sequences db)
  | Lecture => lecture_seq (sequences db)
  | LectureTask => lecturetask_seq (sequences db)
  | TaskControl => taskcontrol_seq (sequences db)
  | TaskComments => taskcomments_seq (sequences db)
  end.

Definition set_sequence (m : Model) (z : Z) (db : Database) : Database :=
  let s := sequences db in
  mkDatabase (course_table db) (lecture_table db) (lecturetask_table db)
    (taskcontrol_table db) (taskcomments_table db) (course_users db)
    (match m with
     | Course =>
         mkSequences z (lecture_seq s) (lecturetask_seq s) (taskcontrol_seq s)
           (taskcomments_seq s)
     | Lecture =>
         mkSequences (course_seq s) z (lecturetask_seq s) (taskcontrol_seq s)
           (taskcomments_seq s)
     | LectureTask =>
         mkSequences (course_seq s) (lecture_seq s) z (taskcontrol_seq s)
           (taskcomments_seq s)
     | TaskControl =>
         mkSequences (course_seq s) (lecture_seq s) (lecturetask_seq s) z
           (taskcomments_seq s)
     | TaskComments =>
         mkSequences (course_seq s) (lecture_seq s) (lecturetask_seq s)
           (taskcontrol_seq s) z
     end).

(** The key an auto-increment column hands out next: one past the last key
    it handed out, whether or not that row is still stored. *)
Definition next_pk (m : Model) (db : Database) : Z := sequence m db + 1.

(** Every stored key was handed out by the sequence of its table. *)
Definition sequences_ahead (db : Database) : Prop :=
  ∀ m k, is_Some (table m db !! k) → k ≤ sequence m db.

(** The store after [instance.delete()] once the referencing rows are
    handled. *)
Definition without (m : Model) (pk : Z) (db1 : Database) : Database :=
  let db2 := set_table m (delete pk (table m db1)) db1 in
  match m with
  | Course => set_course_users (filter (fun cu => cu.1 ≠ pk) (course_users db2)) db2
  | _ => db2
  end.

(** The store after inserting row [r] into the table of [m] under the next
    key of its sequence. *)
Definition with_new (m : Model) (r : Row) (db : Database) : Database :=
  set_sequence m (next_pk m db)
    (set_table m (<[next_pk m db := r]> (table m db)) db).

(** The store after overwriting row [pk] of the table of [m]. *)
Definition with_saved (m : Model) (pk : Z) (r : Row) (db : Database) : Database :=
  set_table m (<[pk := r]> (table m db)) db.

(** ** Requests, responses, exceptions *)

(** The verbs of the five operations the views bind, and [PATCH].  [HEAD]
    and [OPTIONS], which the framework answers on its own ([HEAD] through
    [get], [OPTIONS] with the metadata of the view), are outside this model:
    every statement below is about these five verbs. *)
Inductive Method := GET | POST | PUT | PATCH | DELETE.

(** [request.user]: an authenticated user or Django's [AnonymousUser]. *)
Inductive Caller := AnonymousUser | User (uid : Z).

Inductive MediaType :=
  | application_json
  | application_x_www_form_urlencoded
  | multipart_form_data
  | text_plain.

#[global] Instance MediaType_eq_dec : EqDecision MediaType.
Proof. solve_decision. Defined.

Record Request := mkRequest {
  method : Method;
  user : Caller;
  (** the captured [pk] of a detail route (unused by list routes); the
      lookups below are those of a key within the range of the key column
      ([key_in_range]): beyond it the backend fails before it looks *)
  kwargs_pk : Z;
  (** the body, if any, as sent: its content type and its fields *)
  content : option (MediaType * Data)
}.

(** The keys every integer key column holds: those of a 32-bit [AutoField]
    (a [BigAutoField] holds more). *)
Definition key_in_range (pk : Z) : Prop := - 2 ^ 31 ≤ pk < 2 ^ 31.

Inductive Body :=
  | NoBody
  | Instance (pk : Z) (representation : Data)
  | Listing (items : list (Z * Data))
  | Errors (errors : list (string * string))
  | Detail (message : string).

Record Response := mkResponse {
  status_code : Z;
  body : Body;
  headers : list (string * string)
}.

Definition HTTP_200_OK : Z := 200.
Definition HTTP_201_CREATED : Z := 201.
Definition HTTP_204_NO_CONTENT : Z := 204.
Definition HTTP_400_BAD_REQUEST : Z := 400.
Definition HTTP_401_UNAUTHORIZED : Z := 401.
Definition HTTP_403_FORBIDDEN : Z := 403.
Definition HTTP_404_NOT_FOUND : Z := 404.
Definition HTTP_405_METHOD_NOT_ALLOWED : Z := 405.
Definition HTTP_415_UNSUPPORTED_MEDIA_TYPE : Z := 415.

Definition is_success (code : Z) : bool := (200 <=? code) && (code <=? 299).

Inductive Exception :=
  | Http404
  | ValidationError (errors : list (string * string))
  | PermissionDenied
  | NotAuthenticated
  | MethodNotAllowed (verb : Method)
  | UnsupportedMediaType (media : MediaType)
  | FieldError
  | TypeError
  | ProtectedError
  | DatabaseError.

(** The texts of the two API exceptions that name the offending verb or
    media type, between double quotes. *)
Definition verb_name (verb : Method) : string :=
  match verb with
  | GET => "GET"
  | POST => "POST"
  | PUT => "PUT"
  | PATCH => "PATCH"
  | DELETE => "DELETE"
  end.

Definition media_type_name (media : MediaType) : string :=
  match media with
  | application_json => "application/json"
  | application_x_www_form_urlencoded => "application/x-www-form-urlencoded"
  | multipart_form_data => "multipart/form-data"
  | text_plain => "text/plain"
  end.

Definition quoted (s : string) : string :=
  String (ascii_of_nat 34) s +:+ String (ascii_of_nat 34) EmptyString.

Definition method_not_allowed_detail (verb : Method) : string :=
  "Method " +:+ quoted (verb_name verb) +:+ " not allowed.".

Definition unsupported_media_type_detail (media : MediaType) : string :=
  "Unsupported media type " +:+ quoted (media_type_name media) +:+ " in request.".

(** ** The monad of view code: state (the store) and exceptions *)

Inductive Result (A : Type) :=
  | Returns (a : A)
  | Raises (e : Exception).
Arguments Returns {A} a.
Arguments Raises {A} e.

Definition M (A : Type) : Type := Database -> Result A * Database.

Definition ret {A} (a : A) : M A := fun db => (Returns a, db).

Definition raise {A} (e : Exception) : M A := fun db => (Raises e, db).

Definition bind {A B} (c : M A) (k : A -> M B) : M B :=
  fun db =>
    match c db with
    | (Returns a, db') => k a db'
    | (Raises e, db') => (Raises e, db')
    end.

Definition lift {A} (r : Result A) : M A := fun db => (r, db).

Definition get_db : M Database := fun db => (Returns db, db).

Definition put_db (db' : Database) : M unit := fun _ => (Returns tt, db').

Declare Scope view_scope.
Delimit Scope view_scope with view.
Notation "x <~ c ;; k" := (bind c (fun x => k))
  (at level 100, c at next level, right associativity) : view_scope.
Notation "c ;;; k" := (bind c (fun _ => k))
  (at level 100, right associativity) : view_scope.
Local Open Scope view_scope.

(** ** Classes the views are configured with *)

(** [from . import serializers]: the four serializer classes the views name. *)
Inductive SerializerClass :=
  | CourseSerializer
  | LectureSerializer
  | TaskSerializer
  | TaskControlSerializer.

Inductive PermissionClass := LecturerOrGetPermissions | AllowAny.

Inductive ParserClass := JSONParser | FormParser | MultiPartParser.

Inductive RendererClass := JSONRenderer | BrowsableAPIRenderer.

Definition parser_media_type (p : ParserClass) : MediaType :=
  match p with
  | JSONParser => application_json
  | FormParser => application_x_www_form_urlencoded
  | MultiPartParser => multipart_form_data
  end.

(** Modelled from the spec: [serializers.py] is not among the sources.  Each
    serializer is the schema of the entity it is named after (the "Task"
    serializer is the one of [LectureTask]) and saves rows of that entity. *)
Definition Meta_model (sc : SerializerClass) : Model :=
  match sc with
  | CourseSerializer => Course
  | LectureSerializer => Lecture
  | TaskSerializer => LectureTask
  | TaskControlSerializer => TaskControl
  end.

(** The statements the views send: a select, the insert, update and delete
    of a row, and the insert into the through table of [Course.users]. *)
Inductive DbOp := Select | Insert | Update | Delete | InsertMembership.

(** What the views import from the rest of the project and run on, none of
    which is in [views.py]: the permission class, the serializers' field
    logic, the [on_delete] rules of the models, the framework settings, and
    a database backend that may fail. *)
Record Project := mkProject {
  (** [permissions.LecturerOrGetPermissions.has_permission(request, view)] *)
  lecturer_or_get : Request -> bool;
  (** [serializer.run_validation]: field errors, none when the payload is
      valid; the instance is given on updates *)
  run_validation :
    SerializerClass -> Database -> option (Z * Row) -> Data -> list (string * string);
  (** [serializer.create(validated_data)] builds the row to insert *)
  serializer_create : SerializerClass -> Data -> Row;
  (** [serializer.update(instance, validated_data)] builds the row to store *)
  serializer_update : SerializerClass -> Row -> Data -> Row;
  (** [serializer.to_representation(instance)] *)
  to_representation : SerializerClass -> Database -> Z -> Row -> Data;
  (** what deleting a row does to the rows that reference it (cascade,
      protect, set null ...), before the row itself is removed *)
  collect : Model -> Z -> Database -> Result Database;
  DEFAULT_PARSER_CLASSES : list ParserClass;
  DEFAULT_RENDERER_CLASSES : list RendererClass;
  (** whether the first authentication class sends [WWW-Authenticate] *)
  authenticate_header : bool;
  (** whether the backend raises [DatabaseError] on a kind of statement *)
  db_fails : DbOp -> bool
}.

(** ** Lookups across relations *)

(** [LOOKUP_SEP = '__']: [split_lookup "" s] is [s.split('__')]. *)
Fixpoint split_lookup (acc s : string) : list string :=
  match s with
  | EmptyString => [acc]
  | String c rest =>
      match rest with
      | String c' rest' =>
          if (Ascii.eqb c "_" && Ascii.eqb c' "_")%bool
          then acc :: split_lookup "" rest'
          else split_lookup (acc +:+ String c "") rest
      | EmptyString => [acc +:+ String c ""]
      end
  end.

(** Name resolution of a lookup path against the models; Django raises
    [FieldError] when a name is not a field of the model reached so far.
    (Lookups that continue into the user model do not occur.) *)
Fixpoint resolves (m : Model) (path : list string) : bool :=
  match path with
  | [] => false
  | name :: rest =>
      match get_field m name with
      | Some ManyToManyUsers => match rest with [] => true | _ => false end
      | Some (ForeignKey parent) =>
          match rest with [] => true | _ => resolves parent rest end
      | None => false
      end
  end.

(** The join: does the row [(pk, r)] of model [m] match [path = value]? *)
Fixpoint follows (db : Database) (m : Model) (path : list string)
    (pk : Z) (r : Row) (value : Z) : bool :=
  match path with
  | [] => false
  | name :: rest =>
      match get_field m name with
      | Some ManyToManyUsers => bool_decide ((pk, value) ∈ course_users db)
      | Some (ForeignKey parent) =>
          match row_fk r with
          | Some p =>
              match rest with
              | [] => bool_decide (p = value)
              | _ =>
                  match table parent db !! p with
                  | Some r' => follows db parent rest p r' value
                  | None => false
                  end
              end
          | None => false
          end
      | None => false
      end
  end.

(** A queryset is a description of a query; nothing is read until it is
    evaluated. *)
Record QuerySet := mkQuerySet {
  qs_model : Model;
  qs_lookup : list string;
  qs_value : Z
}.

(** [Model.objects.filter(<lookup>=value)]: names are resolved and the value
    is prepared when the filter is built, so an unknown name raises
    [FieldError] and an [AnonymousUser] value raises [TypeError] here. *)
Definition objects_filter (m : Model) (lookup : string) (value : Caller)
  : Result QuerySet :=
  let path := split_lookup "" lookup in
  if resolves m path then
    match value with
    | User uid => Returns (mkQuerySet m path uid)
    | AnonymousUser => Raises TypeError
    end
  else Raises FieldError.

(** The rows a queryset selects. *)
Definition evaluate (qs : QuerySet) (db : Database) : gmap Z Row :=
  filter
    (fun kr => follows db (qs_model qs) (qs_lookup qs) kr.1 kr.2 (qs_value qs) = true)
    (table (qs_model qs) db).

(** ** The ten views: class attributes and [get_queryset] *)

Inductive View :=
  | CourseList | CourseDetail
  | LectureList | LectureDetail
  | TaskList | TaskDetail
  | TaskControlList | TaskControlDetail
  | TaskCommentsList | TaskCommentsDetail.

#[global] Instance View_eq_dec : EqDecision View.
Proof. solve_decision. Defined.

Definition all_views : list View :=
  [CourseList; CourseDetail; LectureList; LectureDetail; TaskList; TaskDetail;
   TaskControlList; TaskControlDetail; TaskCommentsList; TaskCommentsDetail].

Definition serializer_class (v : View) : SerializerClass :=
  match v with
  | CourseList => CourseSerializer
  | CourseDetail => CourseSerializer
  | LectureList => LectureSerializer
  | LectureDetail => LectureSerializer
  | TaskList => TaskSerializer
  | TaskDetail => TaskSerializer
  | TaskControlList => TaskControlSerializer
  | TaskControlDetail => TaskSerializer
  | TaskCommentsList => TaskControlSerializer
  | TaskCommentsDetail => TaskSerializer
  end.

Definition permission_classes (v : View) : list PermissionClass :=
  match v with
  | CourseList => [LecturerOrGetPermissions]
  | CourseDetail => [LecturerOrGetPermissions]
  | LectureList => [LecturerOrGetPermissions]
  | LectureDetail => [LecturerOrGetPermissions]
  | TaskList => [LecturerOrGetPermissions]
  | TaskDetail => [LecturerOrGetPermissions]
  | TaskControlList => [AllowAny]
  | TaskControlDetail => [AllowAny]
  | TaskCommentsList => [AllowAny]
  | TaskCommentsDetail => [AllowAny]
  end.

(** [parser_classes] where the class body sets it; [None] where the view
    inherits the attribute of [APIView], which reads the settings. *)
Definition parser_classes (v : View) : option (list ParserClass) :=
  match v with
  | LectureDetail => Some [MultiPartParser]
  | _ => None
  end.

(** No view sets [renderer_classes]. *)
Definition renderer_classes (v : View) : option (list RendererClass) := None.

(** The manager and the keyword of the one [filter] call in each
    [get_queryset]; the value is always [self.request.user]. *)
Definition queryset_filter (v : View) : Model * string :=
  match v with
  | CourseList => (Course, "users")
  | CourseDetail => (Course, "users")
  | LectureList => (Lecture, "course__users")
  | LectureDetail => (Lecture, "course__users")
  | TaskList => (LectureTask, "lecture__course__users")
  | TaskDetail => (LectureTask, "lecture__course__users")
  | TaskControlList => (TaskControl, "task__lecture__course__users")
  | TaskControlDetail => (TaskControl, "task__lecture__course__users")
  | TaskCommentsList => (TaskComments, "taskcontrol__task__lecture__course__users")
  | TaskCommentsDetail => (TaskComments, "task__lecture__course__users")
  end.

Definition view_model (v : View) : Model := (queryset_filter v).1.

Definition get_queryset (v : View) (request : Request) : Result QuerySet :=
  objects_filter (view_model v) (queryset_filter v).2 (user request).

(** The relation names of the filter of a view. *)
Definition lookup_path (v : View) : list string :=
  split_lookup "" (queryset_filter v).2.

(** The generic operation behind a method of a view class;
    [CourseList.post] is the one method with a body of its own. *)
Inductive Handler :=
  | list_mixin
  | create_mixin
  | retrieve_mixin
  | update_mixin
  | destroy_mixin
  | CourseList_post_body.

(** The methods each class defines; any other verb is not allowed. *)
Definition handler (v : View) (m : Method) : option Handler :=
  match v, m with
  | CourseList, GET => Some list_mixin
  | CourseList, POST => Some CourseList_post_body
  | CourseDetail, GET => Some retrieve_mixin
  | CourseDetail, PUT => Some update_mixin
  | CourseDetail, DELETE => Some destroy_mixin
  | LectureList, GET => Some list_mixin
  | LectureList, POST => Some create_mixin
  | LectureDetail, PUT => Some update_mixin
  | LectureDetail, DELETE => Some destroy_mixin
  | TaskList, GET => Some list_mixin
  | TaskList, POST => Some create_mixin
  | TaskDetail, PUT => Some update_mixin
  | TaskDetail, DELETE => Some destroy_mixin
  | TaskControlList, GET => Some list_mixin
  | TaskControlList, POST => Some create_mixin
  | TaskControlDetail, PUT => Some update_mixin
  | TaskControlDetail, DELETE => Some destroy_mixin
  | TaskCommentsList, GET => Some list_mixin
  | TaskCommentsList, POST => Some create_mixin
  | TaskCommentsDetail, PUT => Some update_mixin
  | TaskCommentsDetail, DELETE => Some destroy_mixin
  | _, _ => None
  end.

(** ** The framework operations the views delegate to *)

Section Framework.

Context (P : Project).

(** Every statement goes through the backend, which may raise. *)
Definition execute {A} (op : DbOp) (run : Database -> A * Database) : M A :=
  fun db =>
    if db_fails P op then (Raises DatabaseError, db)
    else let (a, db') := run db in (Returns a, db').

(** Iterating a queryset. *)
Definition queryset_all (qs : QuerySet) : M (list (Z * Row)) :=
  execute Select (fun db => (map_to_list (evaluate qs db), db)).

(** [get_object_or_404(queryset, pk=pk)] *)
Definition get_object_or_404 (qs : QuerySet) (pk : Z) : M (Z * Row) :=
  found <~ execute Select (fun db => (evaluate qs db !! pk, db)) ;;
  match found with
  | Some r => ret (pk, r)
  | None => raise Http404
  end.

(** [Model.objects.create(...)]: the row goes in under the next key of the
    sequence; should that key be in use the backend refuses the insert
    ([IntegrityError], a [DatabaseError]). *)
Definition objects_create (m : Model) (r : Row) : M (Z * Row) :=
  fun db =>
    if db_fails P Insert then (Raises DatabaseError, db)
    else
      match table m db !! next_pk m db with
      | Some _ => (Raises DatabaseError, db)
      | None => (Returns (next_pk m db, r), with_new m r db)
      end.

(** [instance.save()] of a stored instance *)
Definition instance_save (m : Model) (pk : Z) (r : Row) : M unit :=
  execute Update (fun db => (tt, with_saved m pk r db)).

(** [instance.delete()]: referencing rows are handled first, then the row
    goes, and with a course its membership rows. *)
Definition instance_delete (m : Model) (pk : Z) : M unit :=
  execute Delete (fun db => (tt, db)) ;;;
  db <~ get_db ;;
  db1 <~ lift (collect P m pk db) ;;
  put_db (without m pk db1).

(** [course.users.add(user)] *)
Definition users_add (course_pk : Z) (who : Caller) : M unit :=
  match who with
  | AnonymousUser => raise TypeError
  | User uid =>
      execute InsertMembership (fun db =>
        (tt, set_course_users ({[ (course_pk, uid) ]} ∪ course_users db) db))
  end.

Definition get_parsers (v : View) : list ParserClass :=
  default (DEFAULT_PARSER_CLASSES P) (parser_classes v).

Definition get_renderers (v : View) : list RendererClass :=
  default (DEFAULT_RENDERER_CLASSES P) (renderer_classes v).

(** [request.data]: the body is parsed on first access, by the parser whose
    media type matches. *)
Definition request_data (v : View) (request : Request) : Result Data :=
  match content request with
  | None => Returns ∅
  | Some (media, fields) =>
      if bool_decide (media ∈ parser_media_type <$> get_parsers v)
      then Returns fields
      else Raises (UnsupportedMediaType media)
  end.

(** [serializer.is_valid(raise_exception=True)] *)
Definition is_valid (sc : SerializerClass) (instance : option (Z * Row))
    (data : Data) : M unit :=
  fun db =>
    match run_validation P sc db instance data with
    | [] => (Returns tt, db)
    | errors => (Raises (ValidationError errors), db)
    end.

(** [serializer.save()] without an instance *)
Definition serializer_save_new (sc : SerializerClass) (data : Data) : M (Z * Row) :=
  objects_create (Meta_model sc) (serializer_create P sc data).

(** [serializer.data] of a saved instance *)
Definition serializer_data (sc : SerializerClass) (instance : Z * Row) : M Data :=
  db <~ get_db ;;
  ret (to_representation P sc db instance.1 instance.2).

(** [CreateModelMixin.get_success_headers]: a [Location] header when the
    representation has a [url] field, no header otherwise. *)
Definition get_success_headers (data : Data) : list (string * string) :=
  match data !! "url" with
  | Some url => [("Location", url)]
  | None => []
  end.

(** [GenericAPIView.get_object]: the row of the filtered queryset with the
    captured [pk].  (The object-level permission check that follows lets the
    row through: [AllowAny] has none, and the contract describes
    [LecturerOrGetPermissions] by verb and caller only.) *)
Definition get_object (v : View) (request : Request) : M (Z * Row) :=
  queryset <~ lift (get_queryset v request) ;;
  get_object_or_404 queryset (kwargs_pk request).

(** [mixins.ListModelMixin.list] *)
Definition ListModelMixin_list (v : View) (request : Request) : M Response :=
  queryset <~ lift (get_queryset v request) ;;
  rows <~ queryset_all queryset ;;
  db <~ get_db ;;
  ret (mkResponse HTTP_200_OK
         (Listing
            ((fun kr => (kr.1, to_representation P (serializer_class v) db kr.1 kr.2))
               <$> rows))
         []).

(** [mixins.CreateModelMixin.create] *)
Definition CreateModelMixin_create (v : View) (request : Request) : M Response :=
  data <~ lift (request_data v request) ;;
  is_valid (serializer_class v) None data ;;;
  instance <~ serializer_save_new (serializer_class v) data ;;
  representation <~ serializer_data (serializer_class v) instance ;;
  ret (mkResponse HTTP_201_CREATED (Instance instance.1 representation)
         (get_success_headers representation)).

(** [mixins.RetrieveModelMixin.retrieve] *)
Definition RetrieveModelMixin_retrieve (v : View) (request : Request) : M Response :=
  instance <~ get_object v request ;;
  representation <~ serializer_data (serializer_class v) instance ;;
  ret (mkResponse HTTP_200_OK (Instance instance.1 representation) []).

(** [mixins.UpdateModelMixin.update] *)
Definition UpdateModelMixin_update (v : View) (request : Request) : M Response :=
  instance <~ get_object v request ;;
  data <~ lift (request_data v request) ;;
  is_valid (serializer_class v) (Some instance) data ;;;
  let saved := serializer_update P (serializer_class v) instance.2 data in
  instance_save (view_model v) instance.1 saved ;;;
  representation <~ serializer_data (serializer_class v) (instance.1, saved) ;;
  ret (mkResponse HTTP_200_OK (Instance instance.1 representation) []).

(** [mixins.DestroyModelMixin.destroy] *)
Definition DestroyModelMixin_destroy (v : View) (request : Request) : M Response :=
  instance <~ get_object v request ;;
  instance_delete (view_model v) instance.1 ;;;
  ret (mkResponse HTTP_204_NO_CONTENT NoBody []).

(** [CourseList.post] *)
Definition CourseList_post (request : Request) : M Response :=
  data <~ lift (request_data CourseList request) ;;
  is_valid (serializer_class CourseList) None data ;;;
  new_course <~ serializer_save_new (serializer_class CourseList) data ;;
  users_add new_course.1 (user request) ;;;
  representation <~ serializer_data (serializer_class CourseList) new_course ;;
  ret (mkResponse HTTP_201_CREATED (Instance new_course.1 representation)
         (get_success_headers representation)).

Definition run_handler (h : Handler) (v : View) (request : Request) : M Response :=
  match h with
  | list_mixin => ListModelMixin_list v request
  | create_mixin => CreateModelMixin_create v request
  | retrieve_mixin => RetrieveModelMixin_retrieve v request
  | update_mixin => UpdateModelMixin_update v request
  | destroy_mixin => DestroyModelMixin_destroy v request
  | CourseList_post_body => CourseList_post request
  end.

Definition has_permission (p : PermissionClass) (request : Request) : bool :=
  match p with
  | AllowAny => true
  | LecturerOrGetPermissions => lecturer_or_get P request
  end.

(** The views' permission classes all let the request through. *)
Definition permitted (v : View) (request : Request) : bool :=
  forallb (fun p => has_permission p request) (permission_classes v).

(** [APIView.permission_denied]: the exception a refused request raises. *)
Definition permission_denied (request : Request) : Exception :=
  match user request with
  | AnonymousUser => NotAuthenticated
  | User _ => PermissionDenied
  end.

(** [APIView.check_permissions] *)
Definition check_permissions (v : View) (request : Request) : M unit :=
  if permitted v request then ret tt else raise (permission_denied request).

(** The code of a view that runs for a request: the permission check of
    [initial], then the method the class defines for the verb. *)
Definition view_code (v : View) (request : Request) : M Response :=
  check_permissions v request ;;;
  match handler v (method request) with
  | Some h => run_handler h v request
  | None => raise (MethodNotAllowed (method request))
  end.

(** [APIView.handle_exception]: API exceptions and [Http404] become
    responses, anything else is raised again. *)
Definition handle_exception (e : Exception) : Result Response :=
  match e with
  | Http404 => Returns (mkResponse HTTP_404_NOT_FOUND (Detail "Not found.") [])
  | ValidationError errors =>
      Returns (mkResponse HTTP_400_BAD_REQUEST (Errors errors) [])
  | PermissionDenied =>
      Returns (mkResponse HTTP_403_FORBIDDEN
                 (Detail "You do not have permission to perform this action.") [])
  | NotAuthenticated =>
      Returns (mkResponse
                 (if authenticate_header P then HTTP_401_UNAUTHORIZED
                  else HTTP_403_FORBIDDEN)
                 (Detail "Authentication credentials were not provided.") [])
  | MethodNotAllowed verb =>
      Returns (mkResponse HTTP_405_METHOD_NOT_ALLOWED
                 (Detail (method_not_allowed_detail verb)) [])
  | UnsupportedMediaType media =>
      Returns (mkResponse HTTP_415_UNSUPPORTED_MEDIA_TYPE
                 (Detail (unsupported_media_type_detail media)) [])
  | FieldError => Raises FieldError
  | TypeError => Raises TypeError
  | ProtectedError => Raises ProtectedError
  | DatabaseError => Raises DatabaseError
  end.

(** [APIView.dispatch] *)
Definition dispatch (v : View) (request : Request) : M Response :=
  fun db =>
    match view_code v request db with
    | (Returns response, db') => (Returns response, db')
    | (Raises e, db') => (handle_exception e, db')
    end.

End Framework.

(** ** The ownership chain, in the words of the API contract *)

(** The course a lecture belongs to. *)
Definition course_of_lecture (db : Database) (r : Row) : option Z :=
  c ← row_fk r; _ ← course_table db !! c; Some c.

(** The course of the lecture a task belongs to. *)
Definition course_of_task (db : Database) (r : Row) : option Z :=
  l ← row_fk r; lecture ← lecture_table db !! l; course_of_lecture db lecture.

(** The course of the task a task-control record belongs to. *)
Definition course_of_taskcontrol (db : Database) (r : Row) : option Z :=
  t ← row_fk r; task ← lecturetask_table db !! t; course_of_task db task.

(** The course of the task-control record a comment belongs to. *)
Definition course_of_taskcomments (db : Database) (r : Row) : option Z :=
  tc ← row_fk r; control ← taskcontrol_table db !! tc;
  course_of_taskcontrol db control.

(** The course at the top of the ownership chain of the row [(pk, r)]. *)
Definition owning_course (db : Database) (m : Model) (pk : Z) (r : Row) : option Z :=
  match m with
  | Course => Some pk
  | Lecture => course_of_lecture db r
  | LectureTask => course_of_task db r
  | TaskControl => course_of_taskcontrol db r
  | TaskComments => course_of_taskcomments db r
  end.

(** The chain of the row reaches a course that has user [u] as a member. *)
Definition reaches_member (db : Database) (u : Z) (m : Model) (pk : Z) (r : Row) : Prop :=
  ∃ c, owning_course db m pk r = Some c ∧ (c, u) ∈ course_users db.

(** Row [pk] of model [m] is stored and is owned, along the chain, by a
    course of user [u]. *)
Definition in_scope (db : Database) (u : Z) (m : Model) (pk : Z) : Prop :=
  ∃ r, table m db !! pk = Some r ∧ reaches_member db u m pk r.

(** The rows a response shows. *)
Definition shows (b : Body) (pk : Z) : Prop :=
  match b with
  | Instance k _ => k = pk
  | Listing items => pk ∈ items.*1
  | _ => False
  end.

(** The list view and the detail view of each resource. *)
Definition list_view (m : Model) : View :=
  match m with
  | Course => CourseList
  | Lecture => LectureList
  | LectureTask => TaskList
  | TaskControl => TaskControlList
  | TaskComments => TaskCommentsList
  end.

Definition detail_view (m : Model) : View :=
  match m with
  | Course => CourseDetail
  | Lecture => LectureDetail
  | LectureTask => TaskDetail
  | TaskControl => TaskControlDetail
  | TaskComments => TaskCommentsDetail
  end.

(** The body a request carries, before any parsing. *)
Definition payload (request : Request) : Data :=
  match content request with
  | Some (_, fields) => fields
  | None => ∅
  end.

(** A detail operation is scoped when the only row its response can show is
    the addressed row, inside the user's scope, and when a request that
    addresses a row outside the scope changes nothing and does not succeed. *)
Definition detail_scoped (db : Database) (u : Z) (m : Model) (request : Request)
    (out : Result Response) (db' : Database) : Prop :=
  (∀ response pk,
     out = Returns response → shows (body response) pk →
     pk = kwargs_pk request ∧ in_scope db u m pk) ∧
  (¬ in_scope db u m (kwargs_pk request) →
   db' = db ∧
   ∀ response, out = Returns response → is_success (status_code response) = false).

(** A create or update request gets as far as validation: it passes the
    permission check, its body is parsed by a parser of the view and, for an
    update, the addressed row is in the queryset of the view. *)
Definition reaches_validation (P : Project) (v : View) (request : Request)
    (db : Database) : Prop :=
  permitted P v request = true ∧
  (∃ data, request_data P v request = Returns data) ∧
  ((method request = POST ∧ ∃ m, v = list_view m) ∨
   (method request = PUT ∧
    ∃ m instance db1,
      v = detail_view m ∧ get_object P v request db = (Returns instance, db1))).

(** The payload of a create or update request fails the validation the
    request would run: without an instance for a create, against the
    addressed row, if it is stored, for an update. *)
Definition fails_validation (P : Project) (v : View) (request : Request)
    (db : Database) : Prop :=
  match method request with
  | POST => run_validation P (serializer_class v) db None (payload request) ≠ []
  | PUT =>
      ∀ r,
        table (view_model v) db !! kwargs_pk request = Some r →
        run_validation P (serializer_class v) db (Some (kwargs_pk request, r))
          (payload request) ≠ []
  | _ => False
  end.

Definition bad_request (out : Result Response) : Prop :=
  ∃ errors,
    errors ≠ [] ∧ out = Returns (mkResponse HTTP_400_BAD_REQUEST (Errors errors) []).

(** The filter starts at a [task] relation of the model. *)
Definition filters_on_task (v : View) : bool :=
  match lookup_path v with
  | name :: _ => String.eqb name "task"
  | [] => false
  end.

(** The endpoints of a model. *)
Definition views_of (m : Model) : list View :=
  filter (fun v => view_model v = m) all_views.

(** The chain of a comment, link by link. *)
Definition comment_chain (db : Database) (u : Z) (r : Row) : Prop :=
  ∃ tc control t task l lecture c course,
    row_fk r = Some tc ∧ taskcontrol_table db !! tc = Some control ∧
    row_fk control = Some t ∧ lecturetask_table db !! t = Some task ∧
    row_fk task = Some l ∧ lecture_table db !! l = Some lecture ∧
    row_fk lecture = Some c ∧ course_table db !! c = Some course ∧
    (c, u) ∈ course_users db.

(** The statements an operation sends to the backend, in order. *)
Definition statements (h : Handler) : list DbOp :=
  match h with
  | list_mixin => [Select]
  | retrieve_mixin => [Select]
  | create_mixin => [Insert]
  | CourseList_post_body => [Insert; InsertMembership]
  | update_mixin => [Select; Update]
  | destroy_mixin => [Select; Delete]
  end.

(** A request gets as far as its first statement: it is permitted, the class
    defines the verb, and the filter can be built (for the operations that
    start from the queryset) or the payload is valid (for the ones that
    create). *)
Definition reaches_backend (P : Project) (v : View) (request : Request)
    (db : Database) : Prop :=
  permitted P v request = true ∧
  ∃ h,
    handler v (method request) = Some h ∧
    match h with
    | create_mixin | CourseList_post_body =>
        ∃ data,
          request_data P v request = Returns data ∧
          run_validation P (serializer_class v) db None data = []
    | _ => ∃ qs, get_queryset v request = Returns qs
    end.

(** The run of operation [h] gets as far as its statement [op]: whatever
    comes before it in the operation went through. *)
Definition arrives_at (P : Project) (v : View) (request : Request) (db : Database)
    (h : Handler) (op : DbOp) : Prop :=
  match h, op with
  | list_mixin, Select | retrieve_mixin, Select
  | update_mixin, Select | destroy_mixin, Select =>
      ∃ qs, get_queryset v request = Returns qs
  | update_mixin, Update =>
      ∃ instance data,
        get_object P v request db = (Returns instance, db) ∧
        request_data P v request = Returns data ∧
        run_validation P (serializer_class v) db (Some instance) data = []
  | destroy_mixin, Delete =>
      ∃ instance, get_object P v request db = (Returns instance, db)
  | create_mixin, Insert | CourseList_post_body, Insert =>
      ∃ data,
        request_data P v request = Returns data ∧
        run_validation P (serializer_class v) db None data = []
  | CourseList_post_body, InsertMembership =>
      ∃ data u,
        request_data P v request = Returns data ∧
        run_validation P (serializer_class v) db None data = [] ∧
        db_fails P Insert = false ∧
        table Course db !! next_pk Course db = None ∧
        user request = User u
  | _, _ => False
  end.

(** The store a failing statement leaves behind: the membership statement of
    [CourseList.post] fails after the course row was saved, every other
    statement fails before anything was written. *)
Definition left_by_failure (P : Project) (request : Request) (op : DbOp)
    (db : Database) : Database :=
  match op with
  | InsertMembership =>
      with_new Course (serializer_create P CourseSerializer (payload request)) db
  | _ => db
  end.

(** ** A small project and store to run the views on *)

Module Demo.

(** Anyone may read; user 10 is the lecturer and may write. *)
Definition lecturer_or_get (request : Request) : bool :=
  match method request with
  | GET => true
  | _ => match user request with User uid => uid =? 10 | AnonymousUser => false end
  end.

(** Every schema requires a [name]. *)
Definition run_validation (sc : SerializerClass) (db : Database)
    (instance : option (Z * Row)) (data : Data) : list (string * string) :=
  match data !! "name" with
  | Some _ => []
  | None => [("name", "This field is required.")]
  end.

Definition parent_of (data : Data) : option Z :=
  match data !! "parent" with
  | Some "1" => Some 1
  | Some "2" => Some 2
  | _ => None
  end.

Definition serializer_create (sc : SerializerClass) (data : Data) : Row :=
  mkRow (parent_of data) (delete "parent" data).

Definition serializer_update (sc : SerializerClass) (r : Row) (data : Data) : Row :=
  mkRow (row_fk r) (delete "parent" data ∪ row_attrs r).

(** Hyperlinked representations: the columns and the [url] of the row. *)
Definition route (sc : SerializerClass) : string :=
  match sc with
  | CourseSerializer => "/courses/"
  | LectureSerializer => "/lectures/"
  | TaskSerializer => "/tasks/"
  | TaskControlSerializer => "/taskcontrols/"
  end.

Definition to_representation (sc : SerializerClass) (db : Database) (pk : Z) (r : Row)
  : Data := <[ "url" := route sc +:+ pretty pk ]> (row_attrs r).

Definition project_on (fails : DbOp -> bool) : Project :=
  mkProject lecturer_or_get run_validation serializer_create serializer_update
    to_representation (fun _ _ db => Returns db)
    [JSONParser; FormParser; MultiPartParser] [JSONRenderer; BrowsableAPIRenderer]
    false fails.

Definition project : Project := project_on (fun _ => false).

(** The same project on a backend that is down. *)
Definition project_db_down : Project := project_on (fun _ => true).

(** The same project on a backend that reads but fails to delete. *)
Definition project_delete_fails : Project :=
  project_on (fun op => match op with Delete => true | _ => false end).

Definition named (parent : option Z) (name : string) : Row :=
  mkRow parent {[ "name" := name ]}.

(** Two courses, each with one lecture, task, task-control record and
    comment below it.  User 10 is a member of course 1, user 30 of course 2,
    user 20 of no course. *)
Definition db : Database :=
  {| course_table := {[ 1 := named None "Logic"; 2 := named None "Algebra" ]};
     lecture_table := {[ 1 := named (Some 1) "Sequents"; 2 := named (Some 2) "Groups" ]};
     lecturetask_table :=
       {[ 1 := named (Some 1) "Cut elimination"; 2 := named (Some 2) "Cosets" ]};
     taskcontrol_table :=
       {[ 1 := named (Some 1) "Submission A"; 2 := named (Some 2) "Submission B" ]};
     taskcomments_table :=
       {[ 1 := named (Some 1) "Well done"; 2 := named (Some 2) "Redo" ]};
     course_users := {[ (1, 10); (2, 30) ]};
     sequences := mkSequences 2 2 2 2 2 |}.

Definition json (fields : Data) : option (MediaType * Data) :=
  Some (application_json, fields).

End Demo.

(** ** Facts about the store *)

Lemma table_set_table m t db : table m (set_table m t db) = t.
Proof. by destruct m. Qed.

Lemma table_set_table_ne m m' t db :
  m ≠ m' → table m' (set_table m t db) = table m' db.
Proof. by destruct m, m'. Qed.

Lemma course_users_set_table m t db :
  course_users (set_table m t db) = course_users db.
Proof. by destruct m. Qed.

Lemma table_set_course_users m s db : table m (set_course_users s db) = table m db.
Proof. by destruct m. Qed.

Lemma table_set_sequence m m' z db : table m' (set_sequence m z db) = table m' db.
Proof. by destruct m'. Qed.

Lemma course_users_set_sequence m z db :
  course_users (set_sequence m z db) = course_users db.
Proof. reflexivity. Qed.

Lemma table_with_new m r db :
  table m (with_new m r db) = <[next_pk m db := r]> (table m db).
Proof. unfold with_new. by rewrite table_set_sequence, table_set_table. Qed.

Lemma table_with_new_ne m m' r db :
  m ≠ m' → table m' (with_new m r db) = table m' db.
Proof.
  intros Hm. unfold with_new. rewrite table_set_sequence.
  by apply table_set_table_ne.
Qed.

Lemma course_users_with_new m r db :
  course_users (with_new m r db) = course_users db.
Proof. unfold with_new. by rewrite course_users_set_sequence, course_users_set_table. Qed.


(** ** Facts about the querysets *)

Lemma lookup_path_values :
  lookup_path CourseList = ["users"] ∧
  lookup_path CourseDetail = ["users"] ∧
  lookup_path LectureList = ["course"; "users"] ∧
  lookup_path LectureDetail = ["course"; "users"] ∧
  lookup_path TaskList = ["lecture"; "course"; "users"] ∧
  lookup_path TaskDetail = ["lecture"; "course"; "users"] ∧
  lookup_path TaskControlList = ["task"; "lecture"; "course"; "users"] ∧
  lookup_path TaskControlDetail = ["task"; "lecture"; "course"; "users"] ∧
  lookup_path TaskCommentsList = ["taskcontrol"; "task"; "lecture"; "course"; "users"] ∧
  lookup_path TaskCommentsDetail = ["task"; "lecture"; "course"; "users"].
Proof. repeat split; reflexivity. Qed.

(** Every filter but the one of [TaskCommentsDetail] resolves. *)
Lemma get_queryset_user v request u :
  v ≠ TaskCommentsDetail →
  user request = User u →
  get_queryset v request = Returns (mkQuerySet (view_model v) (lookup_path v) u).
Proof.
  intros Hv Hu. unfold get_queryset, objects_filter. rewrite Hu.
  destruct v; try done.
Qed.

Lemma get_queryset_anonymous v request :
  v ≠ TaskCommentsDetail →
  user request = AnonymousUser →
  get_queryset v request = Raises TypeError.
Proof.
  intros Hv Hu. unfold get_queryset, objects_filter. rewrite Hu.
  destruct v; try done.
Qed.

(** [task] is not a field of [TaskComments]: building the filter fails. *)
Lemma get_queryset_TaskCommentsDetail request :
  get_queryset TaskCommentsDetail request = Raises FieldError.
Proof. reflexivity. Qed.

Lemma get_queryset_Returns v request qs :
  get_queryset v request = Returns qs →
  v ≠ TaskCommentsDetail ∧
  ∃ u, user request = User u ∧ qs = mkQuerySet (view_model v) (lookup_path v) u.
Proof.
  intros Hqs.
  destruct (decide (v = TaskCommentsDetail)) as [->|Hv].
  { by rewrite get_queryset_TaskCommentsDetail in Hqs. }
  split; [done|].
  destruct (user request) as [|u] eqn:Hu.
  - by rewrite get_queryset_anonymous in Hqs.
  - rewrite (get_queryset_user _ _ u) in Hqs by done. exists u. split; congruence.
Qed.

Lemma no_parent_no_course (X : Z → Prop) :
  false = true ↔ ∃ c : Z, None = Some c ∧ X c.
Proof. split; [done|]. by intros (c & ? & _). Qed.

Lemma this_course (X : Z → Prop) (c : Z) : X c ↔ ∃ c', Some c = Some c' ∧ X c'.
Proof.
  split.
  - intros Hc. by exists c.
  - intros (c' & Heq & Hc). by injection Heq as ->.
Qed.

(** The join along each lookup path, level by level, against the chain of
    the contract. *)
Lemma follows_users db pk r u :
  follows db Course ["users"] pk r u = true ↔ (pk, u) ∈ course_users db.
Proof. cbn. apply bool_decide_eq_true. Qed.

Lemma follows_course_users db pk r u :
  follows db Lecture ["course"; "users"] pk r u = true ↔
  ∃ c, course_of_lecture db r = Some c ∧ (c, u) ∈ course_users db.
Proof.
  cbn. unfold course_of_lecture.
  destruct (row_fk r) as [c|]; simpl; [|apply no_parent_no_course].
  destruct (course_table db !! c); simpl; [|apply no_parent_no_course].
  rewrite bool_decide_eq_true. apply (this_course (λ c, (c, u) ∈ course_users db)).
Qed.

Lemma follows_lecture_course_users db pk r u :
  follows db LectureTask ["lecture"; "course"; "users"] pk r u = true ↔
  ∃ c, course_of_task db r = Some c ∧ (c, u) ∈ course_users db.
Proof.
  change (follows db LectureTask ["lecture"; "course"; "users"] pk r u) with
    (match row_fk r with
     | Some l =>
         match lecture_table db !! l with
         | Some lecture => follows db Lecture ["course"; "users"] l lecture u
         | None => false
         end
     | None => false
     end).
  unfold course_of_task.
  destruct (row_fk r) as [l|]; simpl; [|apply no_parent_no_course].
  destruct (lecture_table db !! l) as [lecture|]; simpl; [|apply no_parent_no_course].
  apply (follows_course_users db l lecture u).
Qed.

Lemma follows_task_lecture_course_users db pk r u :
  follows db TaskControl ["task"; "lecture"; "course"; "users"] pk r u = true ↔
  ∃ c, course_of_taskcontrol db r = Some c ∧ (c, u) ∈ course_users db.
Proof.
  change (follows db TaskControl ["task"; "lecture"; "course"; "users"] pk r u) with
    (match row_fk r with
     | Some t =>
         match lecturetask_table db !! t with
         | Some task => follows db LectureTask ["lecture"; "course"; "users"] t task u
         | None => false
         end
     | None => false
     end).
  unfold course_of_taskcontrol.
  destruct (row_fk r) as [t|]; simpl; [|apply no_parent_no_course].
  destruct (lecturetask_table db !! t) as [task|]; simpl; [|apply no_parent_no_course].
  apply (follows_lecture_course_users db t task u).
Qed.

Lemma follows_taskcontrol_task_lecture_course_users db pk r u :
  follows db TaskComments ["taskcontrol"; "task"; "lecture"; "course"; "users"]
    pk r u = true ↔
  ∃ c, course_of_taskcomments db r = Some c ∧ (c, u) ∈ course_users db.
Proof.
  change (follows db TaskComments
            ["taskcontrol"; "task"; "lecture"; "course"; "users"] pk r u) with
    (match row_fk r with
     | Some tc =>
         match taskcontrol_table db !! tc with
         | Some control =>
             follows db TaskControl ["task"; "lecture"; "course"; "users"] tc control u
         | None => false
         end
     | None => false
     end).
  unfold course_of_taskcomments.
  destruct (row_fk r) as [tc|]; simpl; [|apply no_parent_no_course].
  destruct (taskcontrol_table db !! tc) as [control|]; simpl;
    [|apply no_parent_no_course].
  apply (follows_task_lecture_course_users db tc control u).
Qed.

(** The join the ORM runs selects the rows whose ownership chain reaches a
    course of the user: the code's lookup path against the contract's chain. *)
Lemma follows_reaches_member db v pk r u :
  v ≠ TaskCommentsDetail →
  follows db (view_model v) (lookup_path v) pk r u = true ↔
  reaches_member db u (view_model v) pk r.
Proof.
  intros Hv. unfold reaches_member.
  destruct v; try done.
  1, 2: change (follows db Course ["users"] pk r u = true ↔
                ∃ c, Some pk = Some c ∧ (c, u) ∈ course_users db);
        rewrite follows_users;
        apply (this_course (λ c, (c, u) ∈ course_users db)).
  1, 2: apply follows_course_users.
  1, 2: apply follows_lecture_course_users.
  1, 2: apply follows_task_lecture_course_users.
  apply follows_taskcontrol_task_lecture_course_users.
Qed.

Lemma evaluate_lookup db v u pk r :
  v ≠ TaskCommentsDetail →
  evaluate (mkQuerySet (view_model v) (lookup_path v) u) db !! pk = Some r ↔
  table (view_model v) db !! pk = Some r ∧ reaches_member db u (view_model v) pk r.
Proof.
  intros Hv. unfold evaluate. rewrite map_lookup_filter_Some. simpl.
  by rewrite follows_reaches_member.
Qed.

Lemma evaluate_in_scope db v u pk :
  v ≠ TaskCommentsDetail →
  is_Some (evaluate (mkQuerySet (view_model v) (lookup_path v) u) db !! pk) ↔
  in_scope db u (view_model v) pk.
Proof.
  intros Hv. unfold in_scope, is_Some.
  split; intros [r Hr]; exists r; by apply evaluate_lookup.
Qed.

(** ** How each operation runs *)

Section Operations.

Context (P : Project).

Lemma get_object_run v request db :
  get_object P v request db =
  match get_queryset v request with
  | Raises e => (Raises e, db)
  | Returns qs =>
      if db_fails P Select then (Raises DatabaseError, db)
      else
        match evaluate qs db !! kwargs_pk request with
        | Some r => (Returns (kwargs_pk request, r), db)
        | None => (Raises Http404, db)
        end
  end.
Proof.
  unfold get_object, get_object_or_404, bind, lift, execute.
  destruct (get_queryset v request); [|done].
  destruct (db_fails P Select); [done|].
  by destruct (evaluate a db !! kwargs_pk request).
Qed.

Lemma list_run v request db :
  ListModelMixin_list P v request db =
  match get_queryset v request with
  | Raises e => (Raises e, db)
  | Returns qs =>
      if db_fails P Select then (Raises DatabaseError, db)
      else
        (Returns
           (mkResponse HTTP_200_OK
              (Listing
                 ((fun kr =>
                     (kr.1, to_representation P (serializer_class v) db kr.1 kr.2))
                    <$> map_to_list (evaluate qs db)))
              []),
         db)
  end.
Proof.
  unfold ListModelMixin_list, queryset_all, bind, lift, execute.
  destruct (get_queryset v request); [|done].
  by destruct (db_fails P Select).
Qed.

Lemma retrieve_run v request db :
  RetrieveModelMixin_retrieve P v request db =
  match get_object P v request db with
  | (Returns instance, _) =>
      (Returns
         (mkResponse HTTP_200_OK
            (Instance instance.1
               (to_representation P (serializer_class v) db instance.1 instance.2))
            []),
       db)
  | (Raises e, _) => (Raises e, db)
  end.
Proof.
  unfold RetrieveModelMixin_retrieve, bind at 1. rewrite get_object_run.
  destruct (get_queryset v request); [|done].
  destruct (db_fails P Select); [done|].
  by destruct (evaluate a db !! kwargs_pk request).
Qed.

Lemma create_run v request db :
  CreateModelMixin_create P v request db =
  match request_data P v request with
  | Raises e => (Raises e, db)
  | Returns data =>
      match run_validation P (serializer_class v) db None data with
      | [] =>
          if db_fails P Insert then (Raises DatabaseError, db)
          else
            let sc := serializer_class v in
            let r := serializer_create P sc data in
            let pk := next_pk (Meta_model sc) db in
            match table (Meta_model sc) db !! pk with
            | Some _ => (Raises DatabaseError, db)
            | None =>
                let db' := with_new (Meta_model sc) r db in
                let representation := to_representation P sc db' pk r in
                (Returns
                   (mkResponse HTTP_201_CREATED (Instance pk representation)
                      (get_success_headers representation)),
                 db')
            end
      | e :: errors => (Raises (ValidationError (e :: errors)), db)
      end
  end.
Proof.
  unfold CreateModelMixin_create, bind at 1. unfold lift.
  destruct (request_data P v request) as [data|]; [|done].
  unfold bind at 1, is_valid.
  destruct (run_validation P (serializer_class v) db None data); [|done].
  unfold bind, serializer_save_new, objects_create.
  destruct (db_fails P Insert); [done|].
  by destruct (table (Meta_model (serializer_class v)) db !! _).
Qed.

Lemma CourseList_post_run request db :
  CourseList_post P request db =
  match request_data P CourseList request with
  | Raises e => (Raises e, db)
  | Returns data =>
      match run_validation P CourseSerializer db None data with
      | [] =>
          if db_fails P Insert then (Raises DatabaseError, db)
          else
            let r := serializer_create P CourseSerializer data in
            let pk := next_pk Course db in
            match course_table db !! pk with
            | Some _ => (Raises DatabaseError, db)
            | None =>
                let db1 := with_new Course r db in
                match user request with
                | AnonymousUser => (Raises TypeError, db1)
                | User uid =>
                    if db_fails P InsertMembership then (Raises DatabaseError, db1)
                    else
                      let db2 :=
                        set_course_users ({[ (pk, uid) ]} ∪ course_users db1) db1 in
                      let representation :=
                        to_representation P CourseSerializer db2 pk r in
                      (Returns
                         (mkResponse HTTP_201_CREATED (Instance pk representation)
                            (get_success_headers representation)),
                       db2)
                end
            end
      | e :: errors => (Raises (ValidationError (e :: errors)), db)
      end
  end.
Proof.
  unfold CourseList_post, bind at 1. unfold lift.
  destruct (request_data P CourseList request) as [data|]; [|done].
  unfold bind at 1, is_valid. simpl serializer_class.
  destruct (run_validation P CourseSerializer db None data); [|done].
  unfold bind, serializer_save_new, objects_create, users_add, execute, raise.
  destruct (db_fails P Insert); [done|]. simpl.
  destruct (course_table db !! next_pk Course db); [done|].
  destruct (user request); [done|].
  by destruct (db_fails P InsertMembership).
Qed.

Lemma update_run v request db :
  UpdateModelMixin_update P v request db =
  match get_object P v request db with
  | (Raises e, _) => (Raises e, db)
  | (Returns instance, _) =>
      match request_data P v request with
      | Raises e => (Raises e, db)
      | Returns data =>
          match run_validation P (serializer_class v) db (Some instance) data with
          | [] =>
              if db_fails P Update then (Raises DatabaseError, db)
              else
                let saved := serializer_update P (serializer_class v) instance.2 data in
                let db' := with_saved (view_model v) instance.1 saved db in
                (Returns
                   (mkResponse HTTP_200_OK
                      (Instance instance.1
                         (to_representation P (serializer_class v) db' instance.1 saved))
                      []),
                 db')
          | e :: errors => (Raises (ValidationError (e :: errors)), db)
          end
      end
  end.
Proof.
  unfold UpdateModelMixin_update, bind at 1. rewrite get_object_run.
  destruct (get_queryset v request) as [qs|]; [|done].
  destruct (db_fails P Select); [done|].
  destruct (evaluate qs db !! kwargs_pk request) as [r|]; [|done].
  unfold bind at 1, lift.
  destruct (request_data P v request) as [data|]; [|done].
  unfold bind at 1, is_valid.
  destruct (run_validation P (serializer_class v) db _ data); [|done].
  unfold bind, instance_save, execute.
  by destruct (db_fails P Update).
Qed.

Lemma destroy_run v request db :
  DestroyModelMixin_destroy P v request db =
  match get_object P v request db with
  | (Raises e, _) => (Raises e, db)
  | (Returns instance, _) =>
      if db_fails P Delete then (Raises DatabaseError, db)
      else
        match collect P (view_model v) instance.1 db with
        | Raises e => (Raises e, db)
        | Returns db1 =>
            (Returns (mkResponse HTTP_204_NO_CONTENT NoBody []),
             without (view_model v) instance.1 db1)
        end
  end.
Proof.
  unfold DestroyModelMixin_destroy, bind at 1. rewrite get_object_run.
  destruct (get_queryset v request) as [qs|]; [|done].
  destruct (db_fails P Select); [done|].
  destruct (evaluate qs db !! kwargs_pk request) as [r|]; [|done].
  unfold bind, instance_delete, bind, execute, lift, get_db, put_db.
  destruct (db_fails P Delete); [done|]. simpl.
  by destruct (collect P (view_model v) (kwargs_pk request) db).
Qed.

Lemma dispatch_run v request db :
  dispatch P v request db =
  if permitted P v request then
    match handler v (method request) with
    | Some h =>
        match run_handler P h v request db with
        | (Returns response, db') => (Returns response, db')
        | (Raises e, db') => (handle_exception P e, db')
        end
    | None => (handle_exception P (MethodNotAllowed (method request)), db)
    end
  else (handle_exception P (permission_denied request), db).
Proof.
  unfold dispatch, view_code, check_permissions, bind, raise.
  destruct (permitted P v request); simpl; [|done].
  by destruct (handler v (method request)).
Qed.

End Operations.

(** ** Scoping of the list and detail operations *)

Lemma view_model_list m : view_model (list_view m) = m.
Proof. by destruct m. Qed.

Lemma view_model_detail m : view_model (detail_view m) = m.
Proof. by destruct m. Qed.

Lemma list_view_resolves m : list_view m ≠ TaskCommentsDetail.
Proof. by destruct m. Qed.

Lemma detail_view_resolves m : m ≠ TaskComments → detail_view m ≠ TaskCommentsDetail.
Proof. by destruct m. Qed.

Lemma handler_list_GET m : handler (list_view m) GET = Some list_mixin.
Proof. by destruct m. Qed.

Lemma handler_detail_PUT m : handler (detail_view m) PUT = Some update_mixin.
Proof. by destruct m. Qed.

Lemma handler_detail_DELETE m : handler (detail_view m) DELETE = Some destroy_mixin.
Proof. by destruct m. Qed.

(** What a detail class defines: [put] and [delete], and [get] on
    [CourseDetail] alone. *)
Lemma handler_detail m meth h :
  handler (detail_view m) meth = Some h →
  (meth = GET ∧ m = Course ∧ h = retrieve_mixin) ∨
  (meth = PUT ∧ h = update_mixin) ∨
  (meth = DELETE ∧ h = destroy_mixin).
Proof. destruct m, meth; simpl; intros [= <-]; auto. Qed.

Lemma handle_exception_not_success P e response :
  handle_exception P e = Returns response →
  is_success (status_code response) = false ∧ ∀ pk, ¬ shows (body response) pk.
Proof.
  destruct e; simpl; intros [= <-]; simpl;
    try destruct (authenticate_header P); split; auto.
Qed.

(** The rows a listing shows are the rows of the evaluated queryset. *)
Lemma shows_listing (f : Z → Row → Data) (t : gmap Z Row) pk :
  shows (Listing ((fun kr => (kr.1, f kr.1 kr.2)) <$> map_to_list t)) pk ↔
  is_Some (t !! pk).
Proof.
  simpl. rewrite <- list_fmap_compose.
  rewrite list_elem_of_fmap. split.
  - intros ([k r] & -> & Hin). apply elem_of_map_to_list in Hin. by exists r.
  - intros [r Hr]. exists (pk, r). split; [done|]. by apply elem_of_map_to_list.
Qed.

(** What [get_object] of a resolving detail view hands back. *)
Lemma get_object_Returns P v request db instance db1 :
  get_object P v request db = (Returns instance, db1) →
  db1 = db ∧ instance.1 = kwargs_pk request ∧
  ∃ qs, get_queryset v request = Returns qs ∧
        evaluate qs db !! kwargs_pk request = Some instance.2.
Proof.
  rewrite get_object_run.
  destruct (get_queryset v request) as [qs|]; [|done].
  destruct (db_fails P Select); [done|].
  destruct (evaluate qs db !! kwargs_pk request) as [r|] eqn:Hr; [|done].
  intros [= <- <-]. eauto.
Qed.

Lemma get_object_Raises P v request db e db1 :
  get_object P v request db = (Raises e, db1) → db1 = db.
Proof.
  rewrite get_object_run.
  destruct (get_queryset v request) as [qs|]; [|by intros [= _ <-]].
  destruct (db_fails P Select); [by intros [= _ <-]|].
  destruct (evaluate qs db !! kwargs_pk request) as [r|]; [done|].
  by intros [= _ <-].
Qed.

Lemma get_object_in_scope P m u request db instance db1 :
  m ≠ TaskComments →
  user request = User u →
  get_object P (detail_view m) request db = (Returns instance, db1) →
  in_scope db u m (kwargs_pk request).
Proof.
  intros Hm Hu Hget.
  apply get_object_Returns in Hget as (_ & _ & qs & Hqs & Hrow).
  rewrite (get_queryset_user _ _ u) in Hqs by auto using detail_view_resolves.
  injection Hqs as <-.
  rewrite <- (view_model_detail m) at 1.
  apply evaluate_in_scope; [by apply detail_view_resolves|by eexists].
Qed.

(** A [GET] on a list view shows rows of the user's scope only and leaves
    the store as it is. *)
Lemma list_scoped P m u request db out db' :
  method request = GET →
  user request = User u →
  dispatch P (list_view m) request db = (out, db') →
  db' = db ∧
  ∀ response pk,
    out = Returns response → shows (body response) pk → in_scope db u m pk.
Proof.
  intros Hget Hu. rewrite dispatch_run, Hget, handler_list_GET.
  destruct (permitted P (list_view m) request).
  - simpl run_handler. rewrite list_run.
    rewrite (get_queryset_user _ _ u) by auto using list_view_resolves.
    destruct (db_fails P Select).
    + intros [= <- <-]. split; [done|]. by intros response pk.
    + intros [= <- <-]. split; [done|]. intros response pk [= <-] Hshows.
      apply shows_listing in Hshows.
      apply evaluate_in_scope in Hshows; [|by apply list_view_resolves].
      by rewrite view_model_list in Hshows.
  - intros [= <- <-]. split; [done|]. intros response pk Hout Hshows.
    by apply handle_exception_not_success in Hout as [_ Hnone]; apply Hnone in Hshows.
Qed.

Lemma detail_scoped_exception P e db u m request out db' :
  (handle_exception P e, db) = (out, db') →
  detail_scoped db u m request out db'.
Proof.
  intros Hrun. apply pair_equal_spec in Hrun as [<- <-]. split.
  - intros response pk Hout Hshows.
    apply handle_exception_not_success in Hout as [_ Hnone].
    by apply Hnone in Hshows.
  - intros _. split; [done|]. intros response Hout.
    by apply handle_exception_not_success in Hout as [? _].
Qed.

Lemma detail_scoped_found db u m request out db' :
  in_scope db u m (kwargs_pk request) →
  (∀ response pk,
     out = Returns response → shows (body response) pk → pk = kwargs_pk request) →
  detail_scoped db u m request out db'.
Proof.
  intros Hscope Hshows. split.
  - intros response pk Hout Hpk.
    rewrite (Hshows response pk Hout Hpk). by split.
  - by intros Hnot.
Qed.

(** Every operation of a detail view whose filter resolves is scoped. *)
Lemma detail_view_scoped P m u request db out db' :
  m ≠ TaskComments →
  user request = User u →
  dispatch P (detail_view m) request db = (out, db') →
  detail_scoped db u m request out db'.
Proof.
  intros Hm Hu. rewrite dispatch_run.
  destruct (permitted P (detail_view m) request);
    [|apply detail_scoped_exception].
  destruct (handler (detail_view m) (method request)) as [h|] eqn:Hh;
    [|apply detail_scoped_exception].
  apply handler_detail in Hh as [(_ & _ & ->)|[(_ & ->)|(_ & ->)]]; simpl run_handler.
  - rewrite retrieve_run.
    destruct (get_object P (detail_view m) request db) as [[instance|e] db1] eqn:Hobj;
      [|apply detail_scoped_exception].
    intros [= <- <-]. apply detail_scoped_found.
    + by eapply get_object_in_scope.
    + intros response pk [= <-] <-. by apply get_object_Returns in Hobj as (_ & ? & _).
  - rewrite update_run.
    destruct (get_object P (detail_view m) request db) as [[instance|e] db1] eqn:Hobj;
      [|apply detail_scoped_exception].
    destruct (request_data P (detail_view m) request) as [data|e];
      [|apply detail_scoped_exception].
    destruct (run_validation P _ db (Some instance) data) as [|e errors];
      [|apply detail_scoped_exception].
    destruct (db_fails P Update); [apply detail_scoped_exception|].
    intros [= <- <-]. apply detail_scoped_found.
    + by eapply get_object_in_scope.
    + intros response pk [= <-] <-. by apply get_object_Returns in Hobj as (_ & ? & _).
  - rewrite destroy_run.
    destruct (get_object P (detail_view m) request db) as [[instance|e] db1] eqn:Hobj;
      [|apply detail_scoped_exception].
    destruct (db_fails P Delete); [apply detail_scoped_exception|].
    destruct (collect P _ _ db) as [db2|e]; [|apply detail_scoped_exception].
    intros [= <- <-]. apply detail_scoped_found.
    + by eapply get_object_in_scope.
    + by intros response pk [= <-] ?.
Qed.

(** * The properties of the contract *)

(** C1. For an authenticated user, the list operations of Course, Lecture
    and Task show only rows whose ownership chain reaches a course the user
    is a member of, and the detail operations show and act on such rows
    only: a request that addresses any other row changes nothing and does
    not succeed. *)
Theorem C1_list_and_detail_scoped_to_member_courses
    (P : Project) (m : Model) (u : Z) (request : Request) (db : Database) :
  m ∈ [Course; Lecture; LectureTask] →
  user request = User u →
  (∀ out db',
     method request = GET →
     dispatch P (list_view m) request db = (out, db') →
     db' = db ∧
     ∀ response pk,
       out = Returns response → shows (body response) pk → in_scope db u m pk) ∧
  (∀ out db',
     dispatch P (detail_view m) request db = (out, db') →
     detail_scoped db u m request out db').
Proof.
  intros Hm Hu. split.
  - intros out db' Hget Hrun. by eapply list_scoped.
  - intros out db' Hrun. eapply detail_view_scoped; [|done..].
    intros ->. rewrite !elem_of_cons, elem_of_nil in Hm. intuition discriminate.
Qed.

Example LectureList_for_member :
  dispatch Demo.project LectureList (mkRequest GET (User 10) 0 None) Demo.db =
  (Returns (mkResponse 200 (Listing [(1, {[ "name" := "Sequents"; "url" := "/lectures/1" ]})]) []), Demo.db).
Proof. vm_compute. reflexivity. Qed.

Example LectureDetail_delete_outside_scope :
  dispatch Demo.project LectureDetail (mkRequest DELETE (User 10) 2 None) Demo.db =
  (Returns (mkResponse 404 (Detail "Not found.") []), Demo.db).
Proof. vm_compute. reflexivity. Qed.

Lemma C1_witness :
  Lecture ∈ [Course; Lecture; LectureTask] ∧
  user (mkRequest GET (User 10) 0 None) = User 10 ∧
  method (mkRequest GET (User 10) 0 None) = GET ∧
  in_scope Demo.db 10 Lecture 1.
Proof.
  assert (Lecture ∈ [Course; Lecture; LectureTask]) as Hm by (do 2 constructor).
  split; [exact Hm|]. split; [reflexivity|]. split; [reflexivity|].
  destruct (C1_list_and_detail_scoped_to_member_courses Demo.project Lecture 10
              (mkRequest GET (User 10) 0 None) Demo.db Hm eq_refl) as [Hlist _].
  destruct (Hlist _ _ eq_refl LectureList_for_member) as [_ Hshown].
  apply (Hshown _ 1 eq_refl). simpl. constructor.
Defined.

(** ** Creating a course *)




Example CourseList_post_by_lecturer :
  dispatch Demo.project CourseList
    (mkRequest POST (User 10) 0 (Demo.json {[ "name" := "Topology" ]})) Demo.db =
  (Returns
     (mkResponse 201 (Instance 3 {[ "name" := "Topology"; "url" := "/courses/3" ]})
        [("Location", "/courses/3")]),
   set_course_users ({[ (3, 10) ]} ∪ course_users Demo.db)
     (with_new Course (Demo.named None "Topology") Demo.db)).
Proof. vm_compute. reflexivity. Qed.


(** ** The task-control and comment endpoints *)

Lemma AllowAny_permitted P v request :
  permission_classes v = [AllowAny] → permitted P v request = true.
Proof. unfold permitted. by intros ->. Qed.

Lemma in_open_views v :
  v ∈ [TaskControlList; TaskControlDetail; TaskCommentsList; TaskCommentsDetail] →
  permission_classes v = [AllowAny].
Proof.
  rewrite !elem_of_cons, elem_of_nil.
  intros [->|[->|[->|[->|[]]]]]; reflexivity.
Qed.

Example TaskControlList_for_member :
  dispatch Demo.project TaskControlList (mkRequest GET (User 10) 0 None) Demo.db =
  (Returns
     (mkResponse 200
        (Listing [(1, {[ "name" := "Submission A"; "url" := "/taskcontrols/1" ]})]) []),
   Demo.db).
Proof. vm_compute. reflexivity. Qed.

Example TaskControlList_for_outsider :
  dispatch Demo.project TaskControlList (mkRequest GET (User 20) 0 None) Demo.db =
  (Returns (mkResponse 200 (Listing []) []), Demo.db).
Proof. vm_compute. reflexivity. Qed.

Example TaskControlDetail_delete_by_outsider :
  dispatch Demo.project TaskControlDetail (mkRequest DELETE (User 20) 1 None) Demo.db =
  (Returns (mkResponse 404 (Detail "Not found.") []), Demo.db).
Proof. vm_compute. reflexivity. Qed.

(** C3, as stated, fails: the result set of the task-control list depends on
    the caller's memberships.  Records 1 and 2 are stored; user 20, a member
    of no course, is shown neither, while user 10 is shown record 1; and a
    delete of record 1 by user 20 answers 404. *)
Lemma C3_counterexample :
  is_Some (taskcontrol_table Demo.db !! 1) ∧
  (∃ response,
     dispatch Demo.project TaskControlList (mkRequest GET (User 20) 0 None) Demo.db
       = (Returns response, Demo.db) ∧
     ¬ shows (body response) 1) ∧
  (∃ response,
     dispatch Demo.project TaskControlList (mkRequest GET (User 10) 0 None) Demo.db
       = (Returns response, Demo.db) ∧
     shows (body response) 1) ∧
  dispatch Demo.project TaskControlDetail (mkRequest DELETE (User 20) 1 None) Demo.db
    = (Returns (mkResponse 404 (Detail "Not found.") []), Demo.db).
Proof.
  split; [by eexists|]. split; [|split].
  - eexists. split; [apply TaskControlList_for_outsider|].
    simpl. apply not_elem_of_nil.
  - eexists. split; [apply TaskControlList_for_member|].
    simpl. constructor.
  - apply TaskControlDetail_delete_by_outsider.
Qed.

(** C3, amended.  The task-control and comment endpoints carry [AllowAny],
    so the permission check lets every caller through on every operation;
    but the list operations of both and the detail operations of task
    control run on a queryset filtered by the caller's course memberships:
    they show and act on rows of the caller's scope only. *)
Theorem C3_any_caller_permitted_querysets_scoped
    (P : Project) (request : Request) (db : Database) :
  (∀ v,
     v ∈ [TaskControlList; TaskControlDetail; TaskCommentsList; TaskCommentsDetail] →
     check_permissions P v request db = (Returns (), db)) ∧
  (∀ m u out db',
     m ∈ [TaskControl; TaskComments] →
     user request = User u →
     method request = GET →
     dispatch P (list_view m) request db = (out, db') →
     db' = db ∧
     ∀ response pk,
       out = Returns response → shows (body response) pk → in_scope db u m pk) ∧
  (∀ u out db',
     user request = User u →
     dispatch P TaskControlDetail request db = (out, db') →
     detail_scoped db u TaskControl request out db').
Proof.
  split; [|split].
  - intros v Hv. apply in_open_views in Hv.
    unfold check_permissions, permitted. by rewrite Hv.
  - intros m u out db' _ Hu Hget Hrun. by eapply list_scoped.
  - intros u out db' Hu Hrun.
    by apply (detail_view_scoped P TaskControl u request db out db').
Qed.

Lemma C3_witness :
  TaskControlList ∈
    [TaskControlList; TaskControlDetail; TaskCommentsList; TaskCommentsDetail] ∧
  TaskControl ∈ [TaskControl; TaskComments] ∧
  check_permissions Demo.project TaskControlList (mkRequest GET (User 10) 0 None)
    Demo.db = (Returns (), Demo.db) ∧
  in_scope Demo.db 10 TaskControl 1.
Proof.
  assert (TaskControlList ∈
            [TaskControlList; TaskControlDetail; TaskCommentsList; TaskCommentsDetail])
    as Hv by constructor.
  assert (TaskControl ∈ [TaskControl; TaskComments]) as Hm by constructor.
  destruct (C3_any_caller_permitted_querysets_scoped Demo.project
              (mkRequest GET (User 10) 0 None) Demo.db) as (Hperm & Hlist & _).
  split; [exact Hv|]. split; [exact Hm|]. split; [exact (Hperm _ Hv)|].
  destruct (Hlist TaskControl 10 _ _ Hm eq_refl eq_refl TaskControlList_for_member)
    as [_ Hshown].
  apply (Hshown _ 1 eq_refl). simpl. constructor.
Defined.

(** ** [GET] on the detail endpoints *)

(** [CourseDetail] defines [get]: the row of the scope, or 404. *)
Lemma CourseDetail_get P request u db :
  method request = GET →
  user request = User u →
  lecturer_or_get P request = true →
  db_fails P Select = false →
  (in_scope db u Course (kwargs_pk request) →
   ∃ r, course_table db !! kwargs_pk request = Some r ∧
        dispatch P CourseDetail request db =
          (Returns
             (mkResponse HTTP_200_OK
                (Instance (kwargs_pk request)
                   (to_representation P CourseSerializer db (kwargs_pk request) r))
                []),
           db)) ∧
  (¬ in_scope db u Course (kwargs_pk request) →
   dispatch P CourseDetail request db =
     (Returns (mkResponse HTTP_404_NOT_FOUND (Detail "Not found.") []), db)).
Proof.
  intros Hget Hu Hperm Hup.
  assert (dispatch P CourseDetail request db =
          match evaluate (mkQuerySet Course ["users"] u) db !! kwargs_pk request with
          | Some r =>
              (Returns
                 (mkResponse HTTP_200_OK
                    (Instance (kwargs_pk request)
                       (to_representation P CourseSerializer db (kwargs_pk request) r))
                    []),
               db)
          | None => (Returns (mkResponse HTTP_404_NOT_FOUND (Detail "Not found.") []), db)
          end) as Hrun.
  { rewrite dispatch_run. unfold permitted. simpl forallb. rewrite Hperm, Hget.
    simpl. rewrite retrieve_run, get_object_run.
    rewrite (get_queryset_user _ _ u) by done. rewrite Hup.
    change (mkQuerySet (view_model CourseDetail) (lookup_path CourseDetail) u)
      with (mkQuerySet Course ["users"] u).
    by destruct (evaluate _ db !! kwargs_pk request). }
  pose proof (evaluate_in_scope db CourseDetail u (kwargs_pk request)) as Hscope.
  change (mkQuerySet (view_model CourseDetail) (lookup_path CourseDetail) u)
    with (mkQuerySet Course ["users"] u) in Hscope.
  change (view_model CourseDetail) with Course in Hscope.
  split.
  - intros Hin. apply Hscope in Hin as [r Hr]; [|done].
    exists r. rewrite Hrun, Hr. split; [|done].
    unfold evaluate in Hr. by apply map_lookup_filter_Some in Hr as [? _].
  - intros Hout. rewrite Hrun.
    destruct (evaluate _ db !! kwargs_pk request) as [r|] eqn:Hr; [|done].
    exfalso. apply Hout, Hscope; [done|by eexists].
Qed.

(** The other four detail classes define no [get]: the verb is refused. *)
Lemma detail_get_not_allowed P m request db :
  m ≠ Course →
  method request = GET →
  permitted P (detail_view m) request = true →
  dispatch P (detail_view m) request db =
  (Returns
     (mkResponse HTTP_405_METHOD_NOT_ALLOWED (Detail (method_not_allowed_detail GET)) []),
   db).
Proof.
  intros Hm Hget Hperm. rewrite dispatch_run, Hperm, Hget.
  by destruct m.
Qed.

(** C4.  The code at the failing input: task-control record 1 is in the
    scope of user 10, yet a [GET] on its detail endpoint answers 405, not
    the row. *)
Theorem C4_detail_get_answers_405 :
  in_scope Demo.db 10 TaskControl 1 ∧
  dispatch Demo.project TaskControlDetail (mkRequest GET (User 10) 1 None) Demo.db =
  (Returns (mkResponse 405 (Detail (method_not_allowed_detail GET)) []), Demo.db).
Proof.
  split.
  - destruct (list_scoped Demo.project TaskControl 10
                (mkRequest GET (User 10) 0 None) _ _ _ eq_refl eq_refl
                TaskControlList_for_member) as [_ Hshown].
    apply (Hshown _ 1 eq_refl). simpl. constructor.
  - vm_compute. reflexivity.
Qed.

(** ** Invalid payloads *)

Lemma request_data_payload P v request data :
  request_data P v request = Returns data → data = payload request.
Proof.
  unfold request_data, payload.
  destruct (content request) as [[media fields]|]; [|congruence].
  case_bool_decide; congruence.
Qed.

(** The verb each operation is bound to. *)
Lemma handler_verb v meth h :
  handler v meth = Some h →
  match h with
  | list_mixin | retrieve_mixin => meth = GET
  | create_mixin => meth = POST
  | CourseList_post_body => meth = POST ∧ v = CourseList
  | update_mixin => meth = PUT
  | destroy_mixin => meth = DELETE
  end.
Proof. destruct v, meth; simpl; intros [= <-]; auto. Qed.

Lemma handler_list_POST m : is_Some (handler (list_view m) POST).
Proof. destruct m; by eexists. Qed.

(** An update that addresses a row outside the scope is answered 404, before
    its payload is looked at. *)
Lemma update_outside_scope_not_found P m u request db :
  m ≠ TaskComments →
  method request = PUT →
  user request = User u →
  permitted P (detail_view m) request = true →
  db_fails P Select = false →
  ¬ in_scope db u m (kwargs_pk request) →
  dispatch P (detail_view m) request db =
  (Returns (mkResponse HTTP_404_NOT_FOUND (Detail "Not found.") []), db).
Proof.
  intros Hm Hput Hu Hperm Hselect Hout.
  rewrite dispatch_run, Hperm, Hput, handler_detail_PUT. simpl run_handler.
  rewrite update_run, get_object_run.
  rewrite (get_queryset_user _ _ u) by auto using detail_view_resolves.
  rewrite Hselect.
  destruct (evaluate _ db !! kwargs_pk request) as [r|] eqn:Hr; [|done].
  exfalso. apply Hout. rewrite <- (view_model_detail m) at 1.
  apply evaluate_in_scope; [by apply detail_view_resolves|by eexists].
Qed.

Example TaskControlDetail_put_missing_row_invalid_payload :
  dispatch Demo.project TaskControlDetail
    (mkRequest PUT (User 10) 99 (Demo.json ∅)) Demo.db =
  (Returns (mkResponse 404 (Detail "Not found.") []), Demo.db).
Proof. vm_compute. reflexivity. Qed.

(** The object an update or delete addresses is the stored row under the
    key of the URL. *)
Lemma get_object_stored P v request db instance db1 :
  get_object P v request db = (Returns instance, db1) →
  ∃ r,
    instance = (kwargs_pk request, r) ∧
    table (view_model v) db !! kwargs_pk request = Some r.
Proof.
  rewrite get_object_run. unfold get_queryset, objects_filter.
  destruct (resolves _ _); [|done].
  destruct (user request) as [|u]; [done|].
  destruct (db_fails P Select); [done|].
  destruct (evaluate _ db !! kwargs_pk request) as [r|] eqn:Hr; [|done].
  intros [= <- _]. exists r. split; [done|].
  unfold evaluate in Hr. by apply map_lookup_filter_Some in Hr as [? _].
Qed.

(** C5, as stated, fails: an update whose payload fails validation (no
    [name]) but which addresses a row outside the queryset answers 404,
    not 400. *)
Lemma C5_counterexample :
  (∀ instance,
     run_validation Demo.project (serializer_class TaskControlDetail) Demo.db instance
       (payload (mkRequest PUT (User 10) 99 (Demo.json ∅))) ≠ []) ∧
  ∃ response,
    dispatch Demo.project TaskControlDetail
      (mkRequest PUT (User 10) 99 (Demo.json ∅)) Demo.db = (Returns response, Demo.db) ∧
    status_code response = HTTP_404_NOT_FOUND ∧
    status_code response ≠ HTTP_400_BAD_REQUEST.
Proof.
  split; [by intros instance|].
  eexists. split; [apply TaskControlDetail_put_missing_row_invalid_payload|].
  by split.
Qed.

(** C5, amended.  A create or update request whose payload fails the
    validation it would run (without an instance for a create, against the
    addressed row for an update) leaves the store unchanged; it is answered
    400 with the field errors when it gets as far as validation. *)
Theorem C5_invalid_payload_stores_nothing
    (P : Project) (v : View) (request : Request) (db : Database)
    (out : Result Response) (db' : Database) :
  fails_validation P v request db →
  dispatch P v request db = (out, db') →
  db' = db ∧ (reaches_validation P v request db → bad_request out).
Proof.
  unfold fails_validation. intros Hinvalid. rewrite dispatch_run.
  destruct (permitted P v request) eqn:Hperm.
  2: { intros [= <- <-]. split; [done|]. intros (? & _). congruence. }
  destruct (handler v (method request)) as [h|] eqn:Hh.
  2: { intros [= <- <-]. split; [done|].
       intros (_ & _ & [(Hpost & m & ->)|(Hput & m & ? & ? & -> & _)]).
       - rewrite Hpost in Hh. by destruct (handler_list_POST m) as [? ?]; congruence.
       - rewrite Hput, handler_detail_PUT in Hh. congruence. }
  pose proof (handler_verb _ _ _ Hh) as Hbound.
  destruct h; simpl run_handler.
  - by rewrite Hbound in Hinvalid.
  - rewrite Hbound in Hinvalid. rewrite create_run.
    destruct (request_data P v request) as [data|e] eqn:Hdata.
    + apply request_data_payload in Hdata as ->.
      destruct (run_validation P (serializer_class v) db None (payload request))
        as [|e errors]; [done|].
      intros [= <- <-]. split; [done|]. intros _. by exists (e :: errors).
    + intros [= <- <-]. split; [done|]. intros (_ & (data & ?) & _). congruence.
  - by rewrite Hbound in Hinvalid.
  - rewrite Hbound in Hinvalid. rewrite update_run.
    destruct (get_object P v request db) as [[instance|e] db1] eqn:Hobj.
    + destruct (get_object_stored _ _ _ _ _ _ Hobj) as (r & -> & Hr).
      specialize (Hinvalid r Hr).
      destruct (request_data P v request) as [data|e] eqn:Hdata.
      * apply request_data_payload in Hdata as ->.
        destruct (run_validation P (serializer_class v) db
                    (Some (kwargs_pk request, r)) (payload request))
          as [|e errors]; [done|].
        intros [= <- <-]. split; [done|]. intros _. by exists (e :: errors).
      * intros [= <- <-]. split; [done|]. intros (_ & (data & ?) & _). congruence.
    + intros [= <- <-]. split; [done|].
      intros (_ & _ & [(Hpost & _)|(_ & m & ? & ? & _ & ?)]); congruence.
  - by rewrite Hbound in Hinvalid.
  - destruct Hbound as [Hpost ->]. rewrite Hpost in Hinvalid.
    rewrite CourseList_post_run.
    destruct (request_data P CourseList request) as [data|e] eqn:Hdata.
    + apply request_data_payload in Hdata as ->. simpl in Hinvalid.
      destruct (run_validation P CourseSerializer db None (payload request))
        as [|e errors]; [done|].
      intros [= <- <-]. split; [done|]. intros _. by exists (e :: errors).
    + intros [= <- <-]. split; [done|]. intros (_ & (data & ?) & _). congruence.
Qed.

Example TaskControlDetail_put_invalid_payload :
  dispatch Demo.project TaskControlDetail
    (mkRequest PUT (User 10) 1 (Demo.json ∅)) Demo.db =
  (Returns (mkResponse 400 (Errors [("name", "This field is required.")]) []),
   Demo.db).
Proof. vm_compute. reflexivity. Qed.

Example TaskControlDetail_put_fails_validation :
  fails_validation Demo.project TaskControlDetail
    (mkRequest PUT (User 10) 1 (Demo.json ∅)) Demo.db.
Proof. intros r _. vm_compute. discriminate. Qed.

Lemma C5_witness :
  let request := mkRequest PUT (User 10) 1 (Demo.json ∅) in
  fails_validation Demo.project TaskControlDetail request Demo.db ∧
  reaches_validation Demo.project TaskControlDetail request Demo.db ∧
  bad_request (dispatch Demo.project TaskControlDetail request Demo.db).1 ∧
  (dispatch Demo.project TaskControlDetail request Demo.db).2 = Demo.db.
Proof.
  intros request.
  assert (reaches_validation Demo.project TaskControlDetail request Demo.db) as Hreach.
  { split; [reflexivity|]. split; [by eexists|]. right. split; [reflexivity|].
    exists TaskControl, (1, Demo.named (Some 1) "Submission A"), Demo.db.
    split; [reflexivity|]. vm_compute. reflexivity. }
  split; [exact TaskControlDetail_put_fails_validation|]. split; [exact Hreach|].
  destruct (C5_invalid_payload_stores_nothing Demo.project TaskControlDetail request
              Demo.db _ _ TaskControlDetail_put_fails_validation
              TaskControlDetail_put_invalid_payload)
    as [_ Hbad].
  unfold request. rewrite TaskControlDetail_put_invalid_payload.
  split; [exact (Hbad Hreach)|reflexivity].
Defined.

(** ** Deleting, then listing *)

Lemma table_without m pk db : table m (without m pk db) = delete pk (table m db).
Proof.
  unfold without. destruct m; simpl; reflexivity.
Qed.

(** Whatever a list [GET] shows is a stored row of the model. *)
Lemma list_shows_stored P m request db out db' response pk :
  method request = GET →
  dispatch P (list_view m) request db = (out, db') →
  out = Returns response →
  shows (body response) pk →
  is_Some (table m db !! pk).
Proof.
  intros Hget. rewrite dispatch_run, Hget, handler_list_GET.
  destruct (permitted P (list_view m) request).
  - simpl run_handler. rewrite list_run.
    destruct (get_queryset (list_view m) request) as [qs|e] eqn:Hqs.
    + apply get_queryset_Returns in Hqs as (_ & u & _ & ->).
      destruct (db_fails P Select); [by intros [= <- <-]|].
      intros [= <- <-] [= <-] Hshows.
      apply shows_listing in Hshows as [r Hr].
      unfold evaluate in Hr. apply map_lookup_filter_Some in Hr as [Hr _].
      simpl in Hr. rewrite view_model_list in Hr. by exists r.
    + intros [= <- <-] Hout Hshows.
      by apply handle_exception_not_success in Hout as [_ Hnone];
        apply Hnone in Hshows.
  - intros [= <- <-] Hout Hshows.
    by apply handle_exception_not_success in Hout as [_ Hnone]; apply Hnone in Hshows.
Qed.

Lemma exception_is_no_success P e (db : Database) response (db' : Database) :
  (handle_exception P e, db) = (Returns response, db') →
  is_success (status_code response) = true →
  False.
Proof.
  intros Hrun Hsuccess. apply pair_equal_spec in Hrun as [Hout _].
  apply handle_exception_not_success in Hout as [Hfail _]. congruence.
Qed.

(** A [DELETE] of a row of the scope goes through when the caller is
    permitted, the backend is up and the referencing rows can be handled. *)
Lemma destroy_in_scope_succeeds P m u request db db1 :
  m ≠ TaskComments →
  method request = DELETE →
  user request = User u →
  permitted P (detail_view m) request = true →
  db_fails P Select = false →
  db_fails P Delete = false →
  collect P m (kwargs_pk request) db = Returns db1 →
  in_scope db u m (kwargs_pk request) →
  dispatch P (detail_view m) request db =
  (Returns (mkResponse HTTP_204_NO_CONTENT NoBody []),
   without m (kwargs_pk request) db1).
Proof.
  intros Hm Hdelete Hu Hperm Hselect Hdel Hcollect Hscope.
  rewrite dispatch_run, Hperm, Hdelete, handler_detail_DELETE. simpl run_handler.
  rewrite destroy_run, get_object_run.
  rewrite (get_queryset_user _ _ u) by auto using detail_view_resolves.
  rewrite Hselect.
  rewrite <- (view_model_detail m) in Hscope at 1.
  apply evaluate_in_scope in Hscope as [r Hr]; [|by apply detail_view_resolves].
  rewrite Hr, Hdel. simpl. rewrite view_model_detail, Hcollect. reflexivity.
Qed.

(** C6. For every resource, a [DELETE] on the detail endpoint that succeeds
    answers 204 with no body and removes the addressed row, which was a
    stored row; no later [GET] on the list endpoint of the resource, by the
    same user, shows that row. *)
Theorem C6_deleted_row_leaves_the_list
    (P : Project) (m : Model) (request : Request) (db : Database)
    (response : Response) (db' : Database) :
  method request = DELETE →
  dispatch P (detail_view m) request db = (Returns response, db') →
  is_success (status_code response) = true →
  status_code response = HTTP_204_NO_CONTENT ∧
  body response = NoBody ∧
  is_Some (table m db !! kwargs_pk request) ∧
  table m db' !! kwargs_pk request = None ∧
  ∀ request' out db'' response',
    method request' = GET →
    user request' = user request →
    dispatch P (list_view m) request' db' = (out, db'') →
    out = Returns response' →
    ¬ shows (body response') (kwargs_pk request).
Proof.
  intros Hdelete Hrun Hsuccess.
  rewrite dispatch_run, Hdelete, handler_detail_DELETE in Hrun.
  destruct (permitted P (detail_view m) request);
    [|by apply exception_is_no_success in Hrun].
  simpl run_handler in Hrun. rewrite destroy_run in Hrun.
  destruct (get_object P (detail_view m) request db) as [[instance|e] db1] eqn:Hobj;
    [|by apply exception_is_no_success in Hrun].
  destruct (db_fails P Delete); [by apply exception_is_no_success in Hrun|].
  destruct (collect P (view_model (detail_view m)) instance.1 db) as [db2|e];
    [|by apply exception_is_no_success in Hrun].
  injection Hrun as <- <-.
  apply get_object_Returns in Hobj as (_ & Hpk & qs & Hqs & Hrow).
  apply get_queryset_Returns in Hqs as (_ & u & _ & ->).
  unfold evaluate in Hrow. apply map_lookup_filter_Some in Hrow as [Hrow _].
  simpl in Hrow. rewrite view_model_detail in Hrow.
  assert (table m (without (view_model (detail_view m)) instance.1 db2)
            !! kwargs_pk request = None) as Hgone.
  { rewrite view_model_detail, table_without, Hpk. apply lookup_delete_eq. }
  repeat split; [by eexists|exact Hgone|].
  intros request' out db'' response' Hget _ Hlist Hout Hshows.
  eapply list_shows_stored in Hshows as [r Hr]; [|done..].
  congruence.
Qed.

Example CourseDetail_delete_by_lecturer :
  dispatch Demo.project CourseDetail (mkRequest DELETE (User 10) 1 None) Demo.db =
  (Returns (mkResponse 204 NoBody []),
   mkDatabase {[ 2 := Demo.named None "Algebra" ]}
     (lecture_table Demo.db) (lecturetask_table Demo.db) (taskcontrol_table Demo.db)
     (taskcomments_table Demo.db) {[ (2, 30) ]} (sequences Demo.db)).
Proof. vm_compute. reflexivity. Qed.

Lemma C6_witness :
  let request := mkRequest DELETE (User 10) 1 None in
  method request = DELETE ∧
  is_success (status_code (mkResponse 204 NoBody [])) = true ∧
  ∃ db',
    dispatch Demo.project CourseDetail request Demo.db
      = (Returns (mkResponse 204 NoBody []), db') ∧
    is_Some (course_table Demo.db !! 1) ∧
    course_table db' !! 1 = None.
Proof.
  intros request. split; [reflexivity|]. split; [reflexivity|].
  eexists. split; [apply CourseDetail_delete_by_lecturer|].
  destruct (C6_deleted_row_leaves_the_list Demo.project Course request Demo.db _ _
              eq_refl CourseDetail_delete_by_lecturer eq_refl)
    as (_ & _ & Hwas & Hgone & _).
  split; [exact Hwas|exact Hgone].
Defined.

(** ** The filters of the comment endpoints *)

Lemma reaches_member_comment_chain db u pk r :
  reaches_member db u TaskComments pk r ↔ comment_chain db u r.
Proof.
  unfold reaches_member, comment_chain. simpl.
  unfold course_of_taskcomments, course_of_taskcontrol, course_of_task,
    course_of_lecture.
  split.
  - intros (c & Hc & Hu).
    destruct (row_fk r) as [tc|] eqn:H1; [|done]. simpl in Hc.
    destruct (taskcontrol_table db !! tc) as [control|] eqn:H2; [|done]. simpl in Hc.
    destruct (row_fk control) as [t|] eqn:H3; [|done]. simpl in Hc.
    destruct (lecturetask_table db !! t) as [task|] eqn:H4; [|done]. simpl in Hc.
    destruct (row_fk task) as [l|] eqn:H5; [|done]. simpl in Hc.
    destruct (lecture_table db !! l) as [lecture|] eqn:H6; [|done]. simpl in Hc.
    destruct (row_fk lecture) as [c'|] eqn:H7; [|done]. simpl in Hc.
    destruct (course_table db !! c') as [course|] eqn:H8; [|done]. simpl in Hc.
    injection Hc as ->.
    exists tc, control, t, task, l, lecture, c, course. auto 10.
  - intros (tc & control & t & task & l & lecture & c & course &
            H1 & H2 & H3 & H4 & H5 & H6 & H7 & H8 & Hu).
    exists c. split; [|done].
    rewrite H1; simpl. rewrite H2; simpl. rewrite H3; simpl. rewrite H4; simpl.
    rewrite H5; simpl. rewrite H6; simpl. rewrite H7; simpl. by rewrite H8.
Qed.

(** C7, as stated, fails: there are two comment endpoints and only one of
    them filters on a [task] relation; the list endpoint starts at
    [taskcontrol]. *)
Lemma C7_counterexample :
  views_of TaskComments = [TaskCommentsList; TaskCommentsDetail] ∧
  head (lookup_path TaskCommentsList) = Some "taskcontrol" ∧
  filters_on_task TaskCommentsList = false ∧
  length (filter (fun v => filters_on_task v = true) (views_of TaskComments)) ≠ 2%nat.
Proof. repeat split. vm_compute. discriminate. Qed.

(** C7, amended.  A comment belongs to one task-control record; the comment
    list endpoint filters through the chain comment, task control, task,
    lecture, course, users; exactly one comment endpoint, the detail
    endpoint, filters on a [task] relation instead, with the very path of the
    task-control endpoints. *)
Theorem C7_comment_list_follows_chain_detail_filters_on_task :
  get_field TaskComments "taskcontrol" = Some (ForeignKey TaskControl) ∧
  (∀ request u,
     user request = User u →
     ∃ qs,
       get_queryset TaskCommentsList request = Returns qs ∧
       ∀ db pk r,
         evaluate qs db !! pk = Some r ↔
         taskcomments_table db !! pk = Some r ∧ comment_chain db u r) ∧
  filter (fun v => filters_on_task v = true) (views_of TaskComments)
    = [TaskCommentsDetail] ∧
  lookup_path TaskCommentsDetail = lookup_path TaskControlDetail.
Proof.
  split; [reflexivity|]. split; [|split; reflexivity].
  intros request u Hu. eexists. split.
  - by apply get_queryset_user.
  - intros db pk r. rewrite evaluate_lookup by done.
    change (view_model TaskCommentsList) with TaskComments.
    by rewrite reaches_member_comment_chain.
Qed.

Example TaskCommentsList_for_member :
  dispatch Demo.project TaskCommentsList (mkRequest GET (User 30) 0 None) Demo.db =
  (Returns
     (mkResponse 200 (Listing [(2, {[ "name" := "Redo"; "url" := "/taskcontrols/2" ]})])
        []),
   Demo.db).
Proof. vm_compute. reflexivity. Qed.

Lemma C7_witness :
  user (mkRequest GET (User 30) 0 None) = User 30 ∧
  comment_chain Demo.db 30 (Demo.named (Some 2) "Redo").
Proof.
  split; [reflexivity|].
  destruct C7_comment_list_follows_chain_detail_filters_on_task
    as (_ & Hlist & _).
  destruct (Hlist (mkRequest GET (User 30) 0 None) 30 eq_refl) as (qs & Hqs & Hrows).
  apply (Hrows Demo.db 2).
  injection Hqs as <-. vm_compute. reflexivity.
Defined.

(** ** Parsers and renderers *)

(** C8. Only the Lecture detail view sets its parsers, to the multipart
    parser alone: it takes multipart form data and refuses a JSON body.
    Every other view keeps the parsers of the settings, and accepts JSON
    when these include the JSON parser; no view changes the renderers. *)
Theorem C8_only_LectureDetail_changes_the_parser (P : Project) :
  (∀ v, v ≠ LectureDetail → get_parsers P v = DEFAULT_PARSER_CLASSES P) ∧
  get_parsers P LectureDetail = [MultiPartParser] ∧
  (∀ v, get_renderers P v = DEFAULT_RENDERER_CLASSES P) ∧
  (∀ request fields,
     content request = Some (multipart_form_data, fields) →
     request_data P LectureDetail request = Returns fields) ∧
  (∀ request fields,
     content request = Some (application_json, fields) →
     request_data P LectureDetail request =
       Raises (UnsupportedMediaType application_json)) ∧
  (JSONParser ∈ DEFAULT_PARSER_CLASSES P →
   ∀ v request fields,
     v ≠ LectureDetail →
     content request = Some (application_json, fields) →
     request_data P v request = Returns fields).
Proof.
  assert (∀ v, v ≠ LectureDetail → get_parsers P v = DEFAULT_PARSER_CLASSES P)
    as Hdefault by (intros v Hv; by destruct v).
  repeat split; try done.
  - intros request fields Hcontent. unfold request_data. by rewrite Hcontent.
  - intros request fields Hcontent. unfold request_data. by rewrite Hcontent.
  - intros Hjson v request fields Hv Hcontent.
    unfold request_data. rewrite Hcontent, Hdefault by done.
    rewrite bool_decide_eq_true_2; [done|].
    apply list_elem_of_fmap. by exists JSONParser.
Qed.

Example LectureDetail_put_json :
  dispatch Demo.project LectureDetail
    (mkRequest PUT (User 10) 1 (Demo.json {[ "name" := "Sequent calculus" ]})) Demo.db =
  (Returns
     (mkResponse 415 (Detail (unsupported_media_type_detail application_json)) []),
   Demo.db).
Proof. vm_compute. reflexivity. Qed.

Lemma C8_witness :
  JSONParser ∈ DEFAULT_PARSER_CLASSES Demo.project ∧
  LectureList ≠ LectureDetail ∧
  request_data Demo.project LectureList
    (mkRequest POST (User 10) 0 (Demo.json {[ "name" := "Cut" ]}))
  = Returns {[ "name" := "Cut" ]}.
Proof.
  assert (JSONParser ∈ DEFAULT_PARSER_CLASSES Demo.project) as Hjson by constructor.
  assert (LectureList ≠ LectureDetail) as Hv by discriminate.
  split; [exact Hjson|]. split; [exact Hv|].
  destruct (C8_only_LectureDetail_changes_the_parser Demo.project)
    as (_ & _ & _ & _ & _ & Haccepts).
  exact (Haccepts Hjson LectureList
           (mkRequest POST (User 10) 0 (Demo.json {[ "name" := "Cut" ]}))
           {[ "name" := "Cut" ]} Hv eq_refl).
Defined.

(** ** Database errors *)

Lemma backend_down_raises P v request db :
  (∀ op, db_fails P op = true) →
  reaches_backend P v request db →
  dispatch P v request db = (Raises DatabaseError, db).
Proof.
  intros Hdown (Hperm & h & Hh & Hreach).
  rewrite dispatch_run, Hperm, Hh.
  pose proof (handler_verb _ _ _ Hh) as Hbound.
  destruct h; simpl run_handler.
  - destruct Hreach as [qs Hqs]. by rewrite list_run, Hqs, Hdown.
  - destruct Hreach as (data & Hdata & Hvalid).
    by rewrite create_run, Hdata, Hvalid, Hdown.
  - destruct Hreach as [qs Hqs]. by rewrite retrieve_run, get_object_run, Hqs, Hdown.
  - destruct Hreach as [qs Hqs]. by rewrite update_run, get_object_run, Hqs, Hdown.
  - destruct Hreach as [qs Hqs]. by rewrite destroy_run, get_object_run, Hqs, Hdown.
  - destruct Hbound as [_ ->]. destruct Hreach as (data & Hdata & Hvalid).
    simpl in Hvalid. by rewrite CourseList_post_run, Hdata, Hvalid, Hdown.
Qed.

Lemma success_needs_statements P v request db h response db' :
  handler v (method request) = Some h →
  dispatch P v request db = (Returns response, db') →
  is_success (status_code response) = true →
  ∀ op, op ∈ statements h → db_fails P op = false.
Proof.
  intros Hh Hrun Hsuccess. rewrite dispatch_run, Hh in Hrun.
  destruct (permitted P v request); [|by apply exception_is_no_success in Hrun].
  pose proof (handler_verb _ _ _ Hh) as Hbound.
  destruct h; simpl run_handler in Hrun; simpl statements; intros op;
    rewrite ?elem_of_cons, elem_of_nil.
  - rewrite list_run in Hrun.
    destruct (get_queryset v request); [|by apply exception_is_no_success in Hrun].
    destruct (db_fails P Select) eqn:Hselect;
      [by apply exception_is_no_success in Hrun|].
    by intros [->|[]].
  - rewrite create_run in Hrun.
    destruct (request_data P v request) as [data|];
      [|by apply exception_is_no_success in Hrun].
    destruct (run_validation P _ db None data);
      [|by apply exception_is_no_success in Hrun].
    destruct (db_fails P Insert) eqn:Hinsert;
      [by apply exception_is_no_success in Hrun|].
    by intros [->|[]].
  - rewrite retrieve_run, get_object_run in Hrun.
    destruct (get_queryset v request) as [qs|];
      [|by apply exception_is_no_success in Hrun].
    destruct (db_fails P Select) eqn:Hselect;
      [by apply exception_is_no_success in Hrun|].
    by intros [->|[]].
  - rewrite update_run, get_object_run in Hrun.
    destruct (get_queryset v request) as [qs|];
      [|by apply exception_is_no_success in Hrun].
    destruct (db_fails P Select) eqn:Hselect;
      [by apply exception_is_no_success in Hrun|].
    destruct (evaluate qs db !! kwargs_pk request) as [r|];
      [|by apply exception_is_no_success in Hrun].
    destruct (request_data P v request) as [data|];
      [|by apply exception_is_no_success in Hrun].
    destruct (run_validation P _ db _ data);
      [|by apply exception_is_no_success in Hrun].
    destruct (db_fails P Update) eqn:Hupdate;
      [by apply exception_is_no_success in Hrun|].
    by intros [->|[->|[]]].
  - rewrite destroy_run, get_object_run in Hrun.
    destruct (get_queryset v request) as [qs|];
      [|by apply exception_is_no_success in Hrun].
    destruct (db_fails P Select) eqn:Hselect;
      [by apply exception_is_no_success in Hrun|].
    destruct (evaluate qs db !! kwargs_pk request) as [r|];
      [|by apply exception_is_no_success in Hrun].
    destruct (db_fails P Delete) eqn:Hdelete;
      [by apply exception_is_no_success in Hrun|].
    by intros [->|[->|[]]].
  - destruct Hbound as [_ ->]. rewrite CourseList_post_run in Hrun.
    destruct (request_data P CourseList request) as [data|];
      [|by apply exception_is_no_success in Hrun].
    destruct (run_validation P _ db None data);
      [|by apply exception_is_no_success in Hrun].
    destruct (db_fails P Insert) eqn:Hinsert;
      [by apply exception_is_no_success in Hrun|].
    cbv zeta in Hrun.
    destruct (course_table db !! next_pk Course db);
      [by apply exception_is_no_success in Hrun|].
    destruct (user request); [by apply exception_is_no_success in Hrun|].
    destruct (db_fails P InsertMembership) eqn:Hmembership;
      [by apply exception_is_no_success in Hrun|].
    by intros [->|[->|[]]].
Qed.

(** The failure of the one statement a run has arrived at leaves [dispatch]
    as [DatabaseError]: no operation catches it. *)
Lemma statement_failure_raises P v request db h op :
  permitted P v request = true →
  handler v (method request) = Some h →
  arrives_at P v request db h op →
  db_fails P op = true →
  dispatch P v request db = (Raises DatabaseError, left_by_failure P request op db).
Proof.
  intros Hperm Hh Harrives Hfails. rewrite dispatch_run, Hperm, Hh.
  pose proof (handler_verb _ _ _ Hh) as Hbound.
  destruct h, op; simpl in Harrives; try done; simpl run_handler;
    unfold left_by_failure.
  - destruct Harrives as [qs Hqs]. by rewrite list_run, Hqs, Hfails.
  - destruct Harrives as (data & Hdata & Hvalid).
    by rewrite create_run, Hdata, Hvalid, Hfails.
  - destruct Harrives as [qs Hqs].
    by rewrite retrieve_run, get_object_run, Hqs, Hfails.
  - destruct Harrives as [qs Hqs].
    by rewrite update_run, get_object_run, Hqs, Hfails.
  - destruct Harrives as (instance & data & Hobj & Hdata & Hvalid).
    by rewrite update_run, Hobj, Hdata, Hvalid, Hfails.
  - destruct Harrives as [qs Hqs].
    by rewrite destroy_run, get_object_run, Hqs, Hfails.
  - destruct Harrives as [instance Hobj].
    by rewrite destroy_run, Hobj, Hfails.
  - destruct Hbound as [_ ->]. destruct Harrives as (data & Hdata & Hvalid).
    simpl in Hvalid. by rewrite CourseList_post_run, Hdata, Hvalid, Hfails.
  - destruct Hbound as [_ ->].
    destruct Harrives as (data & u & Hdata & Hvalid & Hinsert & Hfresh & Hu).
    simpl in Hvalid, Hfresh.
    rewrite CourseList_post_run, Hdata, Hvalid, Hinsert. cbv zeta.
    rewrite Hfresh, Hu, Hfails.
    by apply request_data_payload in Hdata as ->.
Qed.

(** C9. No view handles a database error.  A [DatabaseError] raised in the
    code of a view leaves [dispatch] as the same exception; the failure of
    any one statement a permitted request arrives at, whatever the other
    statements do, ends the request in [DatabaseError], with the store
    untouched unless the statement is the membership insert of
    [CourseList.post], which leaves the course row it follows; when the
    whole backend fails, every request that gets as far as its first
    statement ends in [DatabaseError]; and a request succeeds only if none
    of the statements of its operation fails. *)
Theorem C9_database_error_propagates
    (P : Project) (v : View) (request : Request) (db : Database) :
  (∀ db',
     view_code P v request db = (Raises DatabaseError, db') →
     dispatch P v request db = (Raises DatabaseError, db')) ∧
  (∀ h op,
     permitted P v request = true →
     handler v (method request) = Some h →
     arrives_at P v request db h op →
     db_fails P op = true →
     dispatch P v request db =
       (Raises DatabaseError, left_by_failure P request op db)) ∧
  ((∀ op, db_fails P op = true) →
   reaches_backend P v request db →
   dispatch P v request db = (Raises DatabaseError, db)) ∧
  (∀ h response db',
     handler v (method request) = Some h →
     dispatch P v request db = (Returns response, db') →
     is_success (status_code response) = true →
     ∀ op, op ∈ statements h → db_fails P op = false).
Proof.
  split; [|split; [|split]].
  - intros db' Hcode. unfold dispatch. by rewrite Hcode.
  - intros h op. apply statement_failure_raises.
  - apply backend_down_raises.
  - intros h response db'. apply success_needs_statements.
Qed.

Example LectureDetail_delete_backend_down :
  dispatch Demo.project_db_down LectureDetail (mkRequest DELETE (User 10) 1 None)
    Demo.db = (Raises DatabaseError, Demo.db).
Proof. vm_compute. reflexivity. Qed.

Example LectureDetail_delete_statement_fails :
  arrives_at Demo.project_delete_fails LectureDetail
    (mkRequest DELETE (User 10) 1 None) Demo.db destroy_mixin Delete.
Proof. eexists. vm_compute. reflexivity. Qed.

Lemma C9_witness :
  let request := mkRequest DELETE (User 10) 1 None in
  permitted Demo.project_delete_fails LectureDetail request = true ∧
  handler LectureDetail (method request) = Some destroy_mixin ∧
  arrives_at Demo.project_delete_fails LectureDetail request Demo.db
    destroy_mixin Delete ∧
  db_fails Demo.project_delete_fails Delete = true ∧
  db_fails Demo.project_delete_fails Select = false ∧
  dispatch Demo.project_delete_fails LectureDetail request Demo.db
    = (Raises DatabaseError, Demo.db) ∧
  (∀ op, db_fails Demo.project_db_down op = true) ∧
  reaches_backend Demo.project_db_down LectureDetail request Demo.db ∧
  dispatch Demo.project_db_down LectureDetail request Demo.db
    = (Raises DatabaseError, Demo.db).
Proof.
  intros request.
  assert (∀ op, db_fails Demo.project_db_down op = true) as Hdown by reflexivity.
  assert (reaches_backend Demo.project_db_down LectureDetail request Demo.db)
    as Hreach.
  { split; [reflexivity|]. exists destroy_mixin. split; [reflexivity|].
    eexists. reflexivity. }
  do 2 (split; [reflexivity|]).
  split; [exact LectureDetail_delete_statement_fails|].
  do 2 (split; [reflexivity|]).
  destruct (C9_database_error_propagates Demo.project_delete_fails LectureDetail
              request Demo.db) as (_ & Hstatement & _).
  split.
  { exact (Hstatement destroy_mixin Delete eq_refl eq_refl
             LectureDetail_delete_statement_fails eq_refl). }
  split; [exact Hdown|]. split; [exact Hreach|].
  destruct (C9_database_error_propagates Demo.project_db_down LectureDetail request
              Demo.db) as (_ & _ & Hraises & _).
  exact (Hraises Hdown Hreach).
Defined.

(** ** Serializers of another entity *)

(** [task] is not a relation of a comment: the comment detail view cannot
    build its filter, so what it defines ([put], [delete]) raises. *)
Lemma TaskCommentsDetail_run P request db :
  dispatch P TaskCommentsDetail request db =
  (match method request with
   | PUT | DELETE => Raises FieldError
   | _ =>
       Returns
         (mkResponse HTTP_405_METHOD_NOT_ALLOWED
            (Detail (method_not_allowed_detail (method request))) [])
   end,
   db).
Proof.
  rewrite dispatch_run.
  destruct (method request) eqn:Hverb; reflexivity.
Qed.




Example TaskControlDetail_put_task_payload :
  dispatch Demo.project TaskControlDetail
    (mkRequest PUT (User 30) 2 (Demo.json {[ "name" := "Resubmission" ]})) Demo.db =
  (Returns
     (mkResponse 200 (Instance 2 {[ "name" := "Resubmission"; "url" := "/tasks/2" ]}) []),
   with_saved TaskControl 2 (Demo.named (Some 2) "Resubmission") Demo.db).
Proof. vm_compute. reflexivity. Qed.


(** * Further properties of the views *)

(** ** What a successful request went through *)

Lemma success_inv P v request db response db' :
  dispatch P v request db = (Returns response, db') →
  is_success (status_code response) = true →
  permitted P v request = true ∧
  ∃ h,
    handler v (method request) = Some h ∧
    run_handler P h v request db = (Returns response, db').
Proof.
  intros Hrun Hsuccess. rewrite dispatch_run in Hrun.
  destruct (permitted P v request); [|by apply exception_is_no_success in Hrun].
  split; [done|].
  destruct (handler v (method request)) as [h|];
    [|by apply exception_is_no_success in Hrun].
  exists h. split; [done|].
  destruct (run_handler P h v request db) as [[response0|e] db0];
    [|by apply exception_is_no_success in Hrun].
  by injection Hrun as -> ->.
Qed.

(** The views each operation is bound in. *)
Lemma handler_shape v meth h :
  handler v meth = Some h →
  match h with
  | list_mixin | create_mixin => ∃ m, v = list_view m
  | CourseList_post_body => v = CourseList
  | retrieve_mixin => v = CourseDetail
  | update_mixin | destroy_mixin => ∃ m, v = detail_view m
  end.
Proof.
  destruct v, meth; simpl; intros [= <-]; try done;
    first [by exists Course | by exists Lecture | by exists LectureTask
          | by exists TaskControl | by exists TaskComments].
Qed.

Lemma list_success P v request db response db' :
  ListModelMixin_list P v request db = (Returns response, db') →
  db' = db ∧
  ∃ qs,
    get_queryset v request = Returns qs ∧
    db_fails P Select = false ∧
    response =
      mkResponse HTTP_200_OK
        (Listing
           ((fun kr => (kr.1, to_representation P (serializer_class v) db kr.1 kr.2))
              <$> map_to_list (evaluate qs db)))
        [].
Proof.
  rewrite list_run.
  destruct (get_queryset v request) as [qs|]; [|done].
  destruct (db_fails P Select) eqn:Hselect; [done|].
  intros [= <- <-]. split; [done|]. by exists qs.
Qed.

Lemma retrieve_success P v request db response db' :
  RetrieveModelMixin_retrieve P v request db = (Returns response, db') →
  db' = db ∧
  ∃ instance,
    get_object P v request db = (Returns instance, db) ∧
    response =
      mkResponse HTTP_200_OK
        (Instance instance.1
           (to_representation P (serializer_class v) db instance.1 instance.2))
        [].
Proof.
  rewrite retrieve_run.
  destruct (get_object P v request db) as [[instance|e] db1] eqn:Hobj; [|done].
  intros [= <- <-]. split; [done|]. exists instance. split; [|done].
  by apply get_object_Returns in Hobj as Hsame; destruct Hsame as [-> _].
Qed.

Lemma create_success P v request db response db' :
  CreateModelMixin_create P v request db = (Returns response, db') →
  ∃ data,
    let sc := serializer_class v in
    let r := serializer_create P sc data in
    let pk := next_pk (Meta_model sc) db in
    request_data P v request = Returns data ∧
    run_validation P sc db None data = [] ∧
    db_fails P Insert = false ∧
    table (Meta_model sc) db !! pk = None ∧
    db' = with_new (Meta_model sc) r db ∧
    response =
      mkResponse HTTP_201_CREATED (Instance pk (to_representation P sc db' pk r))
        (get_success_headers (to_representation P sc db' pk r)).
Proof.
  rewrite create_run.
  destruct (request_data P v request) as [data|]; [|done].
  destruct (run_validation P (serializer_class v) db None data) eqn:Hvalid; [|done].
  destruct (db_fails P Insert) eqn:Hinsert; [done|]. cbv zeta.
  destruct (table _ db !! _) eqn:Hfresh; [done|].
  intros [= <- <-]. exists data. by repeat split.
Qed.

Lemma CourseList_post_success P request db response db' :
  CourseList_post P request db = (Returns response, db') →
  ∃ data u,
    let r := serializer_create P CourseSerializer data in
    let pk := next_pk Course db in
    request_data P CourseList request = Returns data ∧
    run_validation P CourseSerializer db None data = [] ∧
    db_fails P Insert = false ∧
    course_table db !! pk = None ∧
    user request = User u ∧
    db_fails P InsertMembership = false ∧
    db' = set_course_users ({[ (pk, u) ]} ∪ course_users db) (with_new Course r db) ∧
    response =
      mkResponse HTTP_201_CREATED
        (Instance pk (to_representation P CourseSerializer db' pk r))
        (get_success_headers (to_representation P CourseSerializer db' pk r)).
Proof.
  rewrite CourseList_post_run.
  destruct (request_data P CourseList request) as [data|]; [|done].
  destruct (run_validation P CourseSerializer db None data) eqn:Hvalid; [|done].
  destruct (db_fails P Insert) eqn:Hinsert; [done|]. cbv zeta.
  destruct (course_table db !! _) eqn:Hfresh; [done|].
  destruct (user request) as [|u] eqn:Hu; [done|].
  destruct (db_fails P InsertMembership) eqn:Hmembership; [done|].
  intros [= <- <-]. exists data, u. by repeat split.
Qed.

Lemma update_success P v request db response db' :
  UpdateModelMixin_update P v request db = (Returns response, db') →
  ∃ instance data,
    let saved := serializer_update P (serializer_class v) instance.2 data in
    get_object P v request db = (Returns instance, db) ∧
    request_data P v request = Returns data ∧
    run_validation P (serializer_class v) db (Some instance) data = [] ∧
    db_fails P Update = false ∧
    db' = with_saved (view_model v) instance.1 saved db ∧
    response =
      mkResponse HTTP_200_OK
        (Instance instance.1
           (to_representation P (serializer_class v) db' instance.1 saved))
        [].
Proof.
  rewrite update_run.
  destruct (get_object P v request db) as [[instance|e] db1] eqn:Hobj; [|done].
  destruct (request_data P v request) as [data|]; [|done].
  destruct (run_validation P (serializer_class v) db (Some instance) data)
    eqn:Hvalid; [|done].
  destruct (db_fails P Update) eqn:Hupdate; [done|].
  intros [= <- <-]. exists instance, data.
  apply get_object_Returns in Hobj as Hsame. destruct Hsame as [-> _].
  by repeat split.
Qed.

Lemma destroy_success P v request db response db' :
  DestroyModelMixin_destroy P v request db = (Returns response, db') →
  ∃ instance db1,
    get_object P v request db = (Returns instance, db) ∧
    db_fails P Delete = false ∧
    collect P (view_model v) instance.1 db = Returns db1 ∧
    db' = without (view_model v) instance.1 db1 ∧
    response = mkResponse HTTP_204_NO_CONTENT NoBody [].
Proof.
  rewrite destroy_run.
  destruct (get_object P v request db) as [[instance|e] db0] eqn:Hobj; [|done].
  destruct (db_fails P Delete) eqn:Hdelete; [done|].
  destruct (collect P (view_model v) instance.1 db) as [db1|] eqn:Hcollect; [|done].
  intros [= <- <-]. exists instance, db1.
  apply get_object_Returns in Hobj as Hsame. destruct Hsame as [-> _].
  by repeat split.
Qed.

(** ** Verbs *)

(** X1. A [GET] never changes the store: on every view, for every caller,
    whatever the outcome. *)
Theorem X1_get_changes_nothing
    (P : Project) (v : View) (request : Request) (db : Database)
    (out : Result Response) (db' : Database) :
  method request = GET →
  dispatch P v request db = (out, db') →
  db' = db.
Proof.
  intros Hget. rewrite dispatch_run, Hget.
  destruct (permitted P v request); [|by intros [= _ <-]].
  destruct (handler v GET) as [h|] eqn:Hh; [|by intros [= _ <-]].
  pose proof (handler_verb _ _ _ Hh) as Hbound.
  destruct h; simpl run_handler; try done; try (by destruct Hbound).
  - rewrite list_run.
    destruct (get_queryset v request); [|by intros [= _ <-]].
    by destruct (db_fails P Select); intros [= _ <-].
  - rewrite retrieve_run.
    by destruct (get_object P v request db) as [[instance|e] db1]; intros [= _ <-].
Qed.

Lemma X1_witness :
  method (mkRequest GET (User 10) 0 None) = GET ∧
  (dispatch Demo.project LectureList (mkRequest GET (User 10) 0 None) Demo.db).2
    = Demo.db.
Proof.
  split; [reflexivity|].
  exact (X1_get_changes_nothing Demo.project LectureList
           (mkRequest GET (User 10) 0 None) Demo.db _ _ eq_refl
           (surjective_pairing _)).
Defined.

(** X2. Among the requests with one of the verbs [GET], [POST], [PUT],
    [PATCH] and [DELETE], one succeeds only on a verb its class defines, and
    the status tells the operation: 200 for a [GET] on a list view or on
    [CourseDetail], 201 for a [POST] on a list view, 200 for a [PUT] and 204
    for a [DELETE] on a detail view other than the comment detail view.  No
    [PATCH] succeeds, nor a [GET] on the other detail views, nor any of
    these requests on the comment detail view. *)
Theorem X2_success_only_on_defined_verbs
    (P : Project) (v : View) (request : Request) (db : Database)
    (response : Response) (db' : Database) :
  dispatch P v request db = (Returns response, db') →
  is_success (status_code response) = true →
  match method request with
  | GET =>
      status_code response = HTTP_200_OK ∧
      ((∃ m, v = list_view m) ∨ v = CourseDetail)
  | POST => status_code response = HTTP_201_CREATED ∧ ∃ m, v = list_view m
  | PUT =>
      status_code response = HTTP_200_OK ∧
      ∃ m, v = detail_view m ∧ m ≠ TaskComments
  | DELETE =>
      status_code response = HTTP_204_NO_CONTENT ∧
      ∃ m, v = detail_view m ∧ m ≠ TaskComments
  | PATCH => False
  end.
Proof.
  intros Hrun Hsuccess.
  apply success_inv in Hrun as (_ & h & Hh & Hrun); [|done].
  pose proof (handler_verb _ _ _ Hh) as Hbound.
  pose proof (handler_shape _ _ _ Hh) as Hshape.
  destruct h; simpl run_handler in Hrun.
  - rewrite Hbound. apply list_success in Hrun as (_ & qs & _ & _ & ->). auto.
  - rewrite Hbound.
    apply create_success in Hrun as (data & _ & _ & _ & _ & _ & ->). auto.
  - rewrite Hbound. apply retrieve_success in Hrun as (_ & instance & _ & ->). auto.
  - rewrite Hbound.
    apply update_success in Hrun as (instance & data & Hobj & _ & _ & _ & _ & ->).
    split; [done|]. destruct Hshape as [m ->]. exists m. split; [done|].
    intros ->. apply get_object_Returns in Hobj as (_ & _ & qs & Hqs & _).
    by rewrite get_queryset_TaskCommentsDetail in Hqs.
  - rewrite Hbound.
    apply destroy_success in Hrun as (instance & db1 & Hobj & _ & _ & _ & ->).
    split; [done|]. destruct Hshape as [m ->]. exists m. split; [done|].
    intros ->. apply get_object_Returns in Hobj as (_ & _ & qs & Hqs & _).
    by rewrite get_queryset_TaskCommentsDetail in Hqs.
  - destruct Hbound as [-> ->].
    apply CourseList_post_success in Hrun
      as (data & u & _ & _ & _ & _ & _ & _ & _ & ->).
    split; [done|]. by exists Course.
Qed.

Lemma X2_witness :
  let request := mkRequest DELETE (User 10) 1 None in
  dispatch Demo.project CourseDetail request Demo.db
    = (Returns (mkResponse 204 NoBody []),
       (dispatch Demo.project CourseDetail request Demo.db).2) ∧
  is_success (status_code (mkResponse 204 NoBody [])) = true ∧
  ∃ m, CourseDetail = detail_view m ∧ m ≠ TaskComments.
Proof.
  intros request.
  assert (dispatch Demo.project CourseDetail request Demo.db
          = (Returns (mkResponse 204 NoBody []),
             (dispatch Demo.project CourseDetail request Demo.db).2)) as Hrun
    by (unfold request; rewrite CourseDetail_delete_by_lecturer; reflexivity).
  split; [exact Hrun|]. split; [reflexivity|].
  exact (proj2 (X2_success_only_on_defined_verbs Demo.project CourseDetail request
                  Demo.db _ _ Hrun eq_refl)).
Defined.

(** ** Anonymous callers *)

(** X3. The filters compare [Course.users] with [request.user], so for an
    anonymous caller who passes the permission check (as every caller does
    on the task-control and comment views) each operation that starts from
    the queryset, that is list, retrieve, update and destroy, on every view,
    ends in an unhandled exception and leaves the store as it is: a
    [TypeError], or on the comment detail view, whose filter names no
    relation of a comment, a [FieldError]. *)
Theorem X3_anonymous_queryset_operations_raise
    (P : Project) (v : View) (request : Request) (db : Database) (h : Handler) :
  user request = AnonymousUser →
  permitted P v request = true →
  handler v (method request) = Some h →
  Select ∈ statements h →
  dispatch P v request db =
  (Raises (if decide (v = TaskCommentsDetail) then FieldError else TypeError), db).
Proof.
  intros Hanonymous Hperm Hh Hselect.
  rewrite dispatch_run, Hperm, Hh.
  assert (get_queryset v request =
          Raises (if decide (v = TaskCommentsDetail) then FieldError else TypeError))
    as Hqs.
  { destruct (decide (v = TaskCommentsDetail)) as [->|Hv]; [done|].
    by apply get_queryset_anonymous. }
  destruct h; simpl run_handler; simpl in Hselect.
  - rewrite list_run, Hqs. by destruct (decide _).
  - rewrite elem_of_cons, elem_of_nil in Hselect. by destruct Hselect.
  - rewrite retrieve_run, get_object_run, Hqs. by destruct (decide _).
  - rewrite update_run, get_object_run, Hqs. by destruct (decide _).
  - rewrite destroy_run, get_object_run, Hqs. by destruct (decide _).
  - rewrite !elem_of_cons, elem_of_nil in Hselect. by destruct Hselect as [?|[?|[]]].
Qed.

Lemma X3_witness :
  let request := mkRequest GET AnonymousUser 0 None in
  user request = AnonymousUser ∧
  permitted Demo.project TaskControlList request = true ∧
  handler TaskControlList (method request) = Some list_mixin ∧
  Select ∈ statements list_mixin ∧
  dispatch Demo.project TaskControlList request Demo.db = (Raises TypeError, Demo.db).
Proof.
  intros request.
  assert (Select ∈ statements list_mixin) as Hselect by constructor.
  split; [reflexivity|]. split; [reflexivity|].
  split; [reflexivity|]. split; [exact Hselect|].
  exact (X3_anonymous_queryset_operations_raise Demo.project TaskControlList request
           Demo.db list_mixin eq_refl eq_refl eq_refl Hselect).
Defined.

(** ** The comment endpoints *)

(** X4. The comment detail view filters on [task], which is not a relation
    of a comment: every [PUT] and [DELETE] on it, by any caller, for any key
    and payload, ends in an unhandled [FieldError]; a [GET], [POST] or
    [PATCH] is answered 405 with the message that names the verb.  None of
    these requests changes the store. *)
Theorem X4_comment_detail_never_works
    (P : Project) (request : Request) (db : Database) :
  dispatch P TaskCommentsDetail request db =
  (match method request with
   | PUT | DELETE => Raises FieldError
   | GET | POST | PATCH =>
       Returns
         (mkResponse HTTP_405_METHOD_NOT_ALLOWED
            (Detail (method_not_allowed_detail (method request))) [])
   end,
   db).
Proof. rewrite TaskCommentsDetail_run. by destruct (method request). Qed.

Lemma Meta_model_not_TaskComments sc : Meta_model sc ≠ TaskComments.
Proof. by destruct sc. Qed.

(** X5. No view saves through a comment serializer, and the one view that
    could rewrite or delete a comment cannot build its filter: so no [GET],
    [POST], [PUT] or [PATCH] on any view, and no request at all on the
    comment detail view, changes the comment table.  Comments can be listed
    but neither created nor edited nor deleted through their own endpoints. *)
Theorem X5_comment_table_is_read_only
    (P : Project) (v : View) (request : Request) (db : Database)
    (out : Result Response) (db' : Database) :
  method request ≠ DELETE ∨ v = TaskCommentsDetail →
  dispatch P v request db = (out, db') →
  taskcomments_table db' = taskcomments_table db.
Proof.
  intros Hcase Hrun.
  destruct (decide (v = TaskCommentsDetail)) as [->|Hv].
  { rewrite TaskCommentsDetail_run in Hrun. by injection Hrun as _ <-. }
  destruct Hcase as [Hverb|]; [|done].
  rewrite dispatch_run in Hrun.
  destruct (permitted P v request); [|by injection Hrun as _ <-].
  destruct (handler v (method request)) as [h|] eqn:Hh; [|by injection Hrun as _ <-].
  pose proof (handler_verb _ _ _ Hh) as Hbound.
  pose proof (handler_shape _ _ _ Hh) as Hshape.
  destruct h; simpl run_handler in Hrun.
  - rewrite list_run in Hrun.
    destruct (get_queryset v request); [|by injection Hrun as _ <-].
    by destruct (db_fails P Select); injection Hrun as _ <-.
  - rewrite create_run in Hrun.
    destruct (request_data P v request) as [data|]; [|by injection Hrun as _ <-].
    destruct (run_validation P _ db None data); [|by injection Hrun as _ <-].
    destruct (db_fails P Insert); [by injection Hrun as _ <-|]. cbv zeta in Hrun.
    destruct (table _ db !! _); injection Hrun as _ <-; [done|].
    apply (table_with_new_ne _ TaskComments), Meta_model_not_TaskComments.
  - rewrite retrieve_run in Hrun.
    by destruct (get_object P v request db) as [[instance|e] db1];
      injection Hrun as _ <-.
  - rewrite update_run in Hrun.
    destruct (get_object P v request db) as [[instance|e] db1];
      [|by injection Hrun as _ <-].
    destruct (request_data P v request) as [data|]; [|by injection Hrun as _ <-].
    destruct (run_validation P _ db (Some instance) data);
      [|by injection Hrun as _ <-].
    destruct (db_fails P Update); injection Hrun as _ <-; [done|].
    apply (table_set_table_ne _ TaskComments).
    destruct Hshape as [m ->]. rewrite view_model_detail. by intros ->.
  - by rewrite Hbound in Hverb.
  - rewrite CourseList_post_run in Hrun.
    destruct (request_data P CourseList request) as [data|];
      [|by injection Hrun as _ <-].
    destruct (run_validation P _ db None data); [|by injection Hrun as _ <-].
    destruct (db_fails P Insert); [by injection Hrun as _ <-|]. cbv zeta in Hrun.
    destruct (course_table db !! _); [by injection Hrun as _ <-|].
    destruct (user request); [by injection Hrun as _ <-|].
    by destruct (db_fails P InsertMembership); injection Hrun as _ <-.
Qed.

Example TaskCommentsList_post_by_anyone :
  dispatch Demo.project TaskCommentsList
    (mkRequest POST AnonymousUser 0
       (Demo.json {[ "name" := "Looks right"; "parent" := "1" ]})) Demo.db =
  (Returns
     (mkResponse 201
        (Instance 3 {[ "name" := "Looks right"; "url" := "/taskcontrols/3" ]})
        [("Location", "/taskcontrols/3")]),
   with_new TaskControl (Demo.named (Some 1) "Looks right") Demo.db).
Proof. vm_compute. reflexivity. Qed.

Lemma X5_witness :
  let request :=
    mkRequest POST AnonymousUser 0
      (Demo.json {[ "name" := "Looks right"; "parent" := "1" ]}) in
  (method request ≠ DELETE ∨ TaskCommentsList = TaskCommentsDetail) ∧
  taskcomments_table (dispatch Demo.project TaskCommentsList request Demo.db).2
    = taskcomments_table Demo.db.
Proof.
  intros request.
  assert (method request ≠ DELETE ∨ TaskCommentsList = TaskCommentsDetail) as Hcase
    by (left; discriminate).
  split; [exact Hcase|].
  exact (X5_comment_table_is_read_only Demo.project TaskCommentsList request Demo.db
           _ _ Hcase (surjective_pairing _)).
Defined.

(** ** Creating and updating rows *)

Lemma sequence_with_new m r db : sequence m (with_new m r db) = next_pk m db.
Proof. by destruct m. Qed.

Lemma sequence_with_new_ne m m' r db :
  m ≠ m' → sequence m' (with_new m r db) = sequence m' db.
Proof. by destruct m, m'. Qed.

Lemma sequence_set_course_users m s db :
  sequence m (set_course_users s db) = sequence m db.
Proof. by destruct m. Qed.

(** Creating a row keeps the sequences ahead of the keys. *)
Lemma sequences_ahead_with_new m r db :
  sequences_ahead db → sequences_ahead (with_new m r db).
Proof.
  intros Hahead m' k [r' Hr'].
  destruct (decide (m = m')) as [<-|Hm].
  - rewrite sequence_with_new. rewrite table_with_new in Hr'.
    apply lookup_insert_Some in Hr' as [[<- _]|[_ Hr']]; [lia|].
    assert (k ≤ sequence m db) by (apply Hahead; by eexists).
    unfold next_pk. lia.
  - rewrite sequence_with_new_ne by done. rewrite table_with_new_ne in Hr' by done.
    apply Hahead. by eexists.
Qed.

Lemma sequences_ahead_set_course_users s db :
  sequences_ahead db → sequences_ahead (set_course_users s db).
Proof.
  intros Hahead m k. rewrite table_set_course_users, sequence_set_course_users.
  apply Hahead.
Qed.

(** X6. A [POST] that succeeds stores exactly one row, the one the
    serializer of the view builds from the payload: in the table of the
    model of that serializer, under the next key of the sequence of that
    model, a key that was not in use and that the sequence then stands at,
    so that sequences ahead of the stored keys stay ahead; every other table
    is as it was.  The memberships are as they were, except on the course
    list view, where the pair of the new course and the caller is added.
    The response is the 201 that shows the row under that key. *)
Theorem X6_create_stores_one_fresh_row
    (P : Project) (v : View) (request : Request) (db : Database)
    (response : Response) (db' : Database) :
  method request = POST →
  dispatch P v request db = (Returns response, db') →
  is_success (status_code response) = true →
  let sc := serializer_class v in
  let m := Meta_model sc in
  let pk := next_pk m db in
  let r := serializer_create P sc (payload request) in
  table m db !! pk = None ∧
  table m db' = <[pk := r]> (table m db) ∧
  sequence m db' = pk ∧
  (sequences_ahead db → sequences_ahead db') ∧
  (∀ k r0, table m db !! k = Some r0 → table m db' !! k = Some r0) ∧
  (∀ m', m' ≠ m → table m' db' = table m' db) ∧
  (v ≠ CourseList → course_users db' = course_users db) ∧
  (v = CourseList →
   ∃ u, user request = User u ∧ course_users db' = {[ (pk, u) ]} ∪ course_users db) ∧
  response =
    mkResponse HTTP_201_CREATED (Instance pk (to_representation P sc db' pk r))
      (get_success_headers (to_representation P sc db' pk r)).
Proof.
  intros Hpost Hrun Hsuccess sc m pk r.
  apply success_inv in Hrun as (_ & h & Hh & Hrun); [|done].
  pose proof (handler_verb _ _ _ Hh) as Hbound.
  assert (table m db !! pk = None ∧
          table m db' = <[pk := r]> (table m db) ∧
          sequence m db' = pk ∧
          (sequences_ahead db → sequences_ahead db') ∧
          (∀ m', m' ≠ m → table m' db' = table m' db) ∧
          (v ≠ CourseList → course_users db' = course_users db) ∧
          (v = CourseList →
           ∃ u, user request = User u ∧
                course_users db' = {[ (pk, u) ]} ∪ course_users db) ∧
          response =
            mkResponse HTTP_201_CREATED
              (Instance pk (to_representation P sc db' pk r))
              (get_success_headers (to_representation P sc db' pk r)))
    as (Hfresh & Htable & Hsequence & Hahead & Hothers & Hmembers & Hcreator
        & Hresponse).
  { destruct h; simpl run_handler in Hrun;
      try (rewrite Hpost in Hbound; discriminate).
    - assert (v ≠ CourseList) as Hv
        by (intros ->; rewrite Hpost in Hh; discriminate).
      apply create_success in Hrun as (data & Hdata & _ & _ & Hfresh & -> & ->).
      apply request_data_payload in Hdata as ->.
      split; [done|]. split; [apply table_with_new|].
      split; [apply sequence_with_new|].
      split; [apply sequences_ahead_with_new|].
      split; [intros m' Hm'; by apply table_with_new_ne|].
      split; [intros _; apply course_users_with_new|]. by split.
    - destruct Hbound as [_ ->].
      apply CourseList_post_success in Hrun
        as (data & u & Hdata & _ & _ & Hfresh & Hu & _ & -> & ->).
      apply request_data_payload in Hdata as ->.
      split; [done|]. split; [by rewrite table_set_course_users, table_with_new|].
      split; [reflexivity|].
      split; [intros Hahead; by apply sequences_ahead_set_course_users,
                sequences_ahead_with_new|].
      split; [intros m' Hm'; rewrite table_set_course_users;
              by apply table_with_new_ne|].
      split; [done|]. split; [|done].
      intros _. exists u. split; [done|]. reflexivity. }
  do 4 (split; [done|]). split; [|done].
  intros k r0 Hk. rewrite Htable, lookup_insert_ne; [done|]. congruence.
Qed.

Lemma X6_witness :
  let request :=
    mkRequest POST AnonymousUser 0
      (Demo.json {[ "name" := "Looks right"; "parent" := "1" ]}) in
  method request = POST ∧
  is_success 201 = true ∧
  taskcontrol_table Demo.db !! 3 = None ∧
  ∃ db',
    (dispatch Demo.project TaskCommentsList request Demo.db).2 = db' ∧
    taskcontrol_table db' =
      <[3 := Demo.named (Some 1) "Looks right"]> (taskcontrol_table Demo.db) ∧
    course_users db' = course_users Demo.db.
Proof.
  intros request. split; [reflexivity|]. split; [reflexivity|].
  destruct (X6_create_stores_one_fresh_row Demo.project TaskCommentsList request
              Demo.db _ _ eq_refl TaskCommentsList_post_by_anyone eq_refl)
    as (Hfresh & Htable & _ & _ & _ & _ & Hmembers & _).
  split; [exact Hfresh|].
  eexists. split; [|split; [exact Htable|apply Hmembers; discriminate]].
  unfold request. rewrite TaskCommentsList_post_by_anyone. reflexivity.
Defined.

(** X7. After a course [POST] that succeeded, a [GET] on the course list by
    the creator shows the new course, the one under the next key of the
    course sequence (when the creator may read and the backend answers); the
    memberships of every other course are as before. *)
Theorem X7_creator_lists_the_new_course
    (P : Project) (request request' : Request) (u : Z) (db : Database)
    (response : Response) (db' : Database) :
  method request = POST →
  user request = User u →
  dispatch P CourseList request db = (Returns response, db') →
  is_success (status_code response) = true →
  method request' = GET →
  user request' = User u →
  permitted P CourseList request' = true →
  db_fails P Select = false →
  body response =
    Instance (next_pk Course db)
      (to_representation P CourseSerializer db' (next_pk Course db)
         (serializer_create P CourseSerializer (payload request))) ∧
  course_table db !! next_pk Course db = None ∧
  (∃ response',
     dispatch P CourseList request' db' = (Returns response', db') ∧
     shows (body response') (next_pk Course db)) ∧
  (∀ c x,
     c ≠ next_pk Course db →
     (c, x) ∈ course_users db' ↔ (c, x) ∈ course_users db).
Proof.
  intros Hpost Hu Hrun Hsuccess Hget Hu' Hperm Hselect.
  apply success_inv in Hrun as (_ & h & Hh & Hrun); [|done].
  rewrite Hpost in Hh. injection Hh as <-. simpl run_handler in Hrun.
  apply CourseList_post_success in Hrun
    as (data & u0 & Hdata & _ & _ & Hfresh & Hu0 & _ & -> & ->).
  apply request_data_payload in Hdata as ->.
  assert (u0 = u) as -> by congruence.
  split; [done|]. split; [done|]. split.
  - rewrite dispatch_run, Hperm, Hget. simpl. rewrite list_run.
    rewrite (get_queryset_user _ _ u) by done. rewrite Hselect.
    eexists. split; [reflexivity|].
    apply shows_listing, (evaluate_in_scope _ CourseList); [done|].
    exists (serializer_create P CourseSerializer (payload request)). split.
    + simpl. apply lookup_insert_eq.
    + exists (next_pk Course db). split; [done|].
      simpl. apply elem_of_union_l, elem_of_singleton. reflexivity.
  - intros c x Hc. simpl. rewrite elem_of_union, elem_of_singleton.
    split; [|by right]. intros [Heq|Hin]; [|done]. congruence.
Qed.

Lemma X7_witness :
  let request := mkRequest POST (User 10) 0 (Demo.json {[ "name" := "Topology" ]}) in
  let request' := mkRequest GET (User 10) 0 None in
  method request = POST ∧ user request = User 10 ∧
  is_success 201 = true ∧
  method request' = GET ∧ user request' = User 10 ∧
  permitted Demo.project CourseList request' = true ∧
  db_fails Demo.project Select = false ∧
  ∃ response',
    dispatch Demo.project CourseList request'
      (dispatch Demo.project CourseList request Demo.db).2
      = (Returns response', (dispatch Demo.project CourseList request Demo.db).2) ∧
    shows (body response') 3.
Proof.
  intros request request'.
  do 7 (split; [reflexivity|]).
  destruct (X7_creator_lists_the_new_course Demo.project request request' 10 Demo.db
              _ _ eq_refl eq_refl CourseList_post_by_lecturer eq_refl
              eq_refl eq_refl eq_refl eq_refl) as (_ & _ & Hlisted & _).
  unfold request. rewrite CourseList_post_by_lecturer. exact Hlisted.
Defined.

(** X8. A [PUT] that succeeds rewrites the addressed row and nothing else:
    the row was stored and the payload passed the validation against it; the
    table afterwards is the old one with, under that key, the row the
    serializer of the view builds from the stored row and the payload, so no
    key is added or removed; every other table and the memberships are as
    they were; the response is the 200 that shows the saved row. *)
Theorem X8_update_rewrites_the_addressed_row_only
    (P : Project) (v : View) (request : Request) (db : Database)
    (response : Response) (db' : Database) :
  method request = PUT →
  dispatch P v request db = (Returns response, db') →
  is_success (status_code response) = true →
  ∃ m old,
    let pk := kwargs_pk request in
    let saved := serializer_update P (serializer_class v) old (payload request) in
    v = detail_view m ∧
    table m db !! pk = Some old ∧
    run_validation P (serializer_class v) db (Some (pk, old)) (payload request) = [] ∧
    table m db' = <[pk := saved]> (table m db) ∧
    (∀ k, is_Some (table m db' !! k) ↔ is_Some (table m db !! k)) ∧
    (∀ m', m' ≠ m → table m' db' = table m' db) ∧
    course_users db' = course_users db ∧
    response =
      mkResponse HTTP_200_OK
        (Instance pk (to_representation P (serializer_class v) db' pk saved)) [].
Proof.
  intros Hput Hrun Hsuccess.
  apply success_inv in Hrun as (_ & h & Hh & Hrun); [|done].
  pose proof (handler_verb _ _ _ Hh) as Hbound.
  pose proof (handler_shape _ _ _ Hh) as Hshape.
  destruct h; simpl run_handler in Hrun;
    try (rewrite Hput in Hbound; discriminate).
  2: { destruct Hbound as [Hverb _]. rewrite Hput in Hverb. discriminate. }
  destruct Hshape as [m ->].
  apply update_success in Hrun
    as (instance & data & Hobj & Hdata & Hvalid & _ & -> & ->).
  apply request_data_payload in Hdata as ->.
  destruct (get_object_stored _ _ _ _ _ _ Hobj) as (old & -> & Hold).
  rewrite view_model_detail in *. simpl fst in *. simpl snd in *.
  exists m, old. cbv zeta.
  split; [done|]. split; [done|]. split; [done|].
  unfold with_saved. rewrite table_set_table.
  split; [done|]. split; [|split; [|split; [apply course_users_set_table|done]]].
  - intros k. destruct (decide (k = kwargs_pk request)) as [->|Hk].
    + rewrite lookup_insert_eq. split; [by eexists|by eexists].
    + by rewrite lookup_insert_ne.
  - intros m' Hm'. by apply table_set_table_ne.
Qed.

Lemma X8_witness :
  let request := mkRequest PUT (User 30) 2 (Demo.json {[ "name" := "Resubmission" ]}) in
  method request = PUT ∧
  is_success 200 = true ∧
  ∃ db',
    (dispatch Demo.project TaskControlDetail request Demo.db).2 = db' ∧
    taskcontrol_table Demo.db !! 2 = Some (Demo.named (Some 2) "Submission B") ∧
    taskcontrol_table db' !! 2 = Some (Demo.named (Some 2) "Resubmission") ∧
    course_users db' = course_users Demo.db.
Proof.
  intros request. split; [reflexivity|]. split; [reflexivity|].
  destruct (X8_update_rewrites_the_addressed_row_only Demo.project TaskControlDetail
              request Demo.db _ _ eq_refl TaskControlDetail_put_task_payload eq_refl)
    as (m & old & Hm & Hold & _ & Htable & _ & _ & Hmembers & _).
  eexists. split; [unfold request; rewrite TaskControlDetail_put_task_payload;
                   reflexivity|].
  split; [reflexivity|]. split; [reflexivity|]. exact Hmembers.
Defined.

(** ** Deleting and listing *)

Lemma get_object_Returns_select P v request db instance db1 :
  get_object P v request db = (Returns instance, db1) → db_fails P Select = false.
Proof.
  rewrite get_object_run.
  destruct (get_queryset v request) as [qs|]; [|done].
  by destruct (db_fails P Select).
Qed.

Lemma evaluate_absent qs db pk :
  table (qs_model qs) db !! pk = None → evaluate qs db !! pk = None.
Proof.
  intros Habsent. unfold evaluate.
  destruct (filter _ _ !! pk) as [r|] eqn:Hr; [|done].
  apply map_lookup_filter_Some in Hr as [Hr _]. congruence.
Qed.

(** X9. Deleting is not repeatable: after a [DELETE] that succeeded, the
    same request again is answered 404 and changes nothing. *)
Theorem X9_second_delete_is_not_found
    (P : Project) (m : Model) (request : Request) (db : Database)
    (response : Response) (db' : Database) :
  method request = DELETE →
  dispatch P (detail_view m) request db = (Returns response, db') →
  is_success (status_code response) = true →
  dispatch P (detail_view m) request db' =
  (Returns (mkResponse HTTP_404_NOT_FOUND (Detail "Not found.") []), db').
Proof.
  intros Hdelete Hrun Hsuccess.
  apply success_inv in Hrun as (Hperm & h & Hh & Hrun); [|done].
  rewrite Hdelete, handler_detail_DELETE in Hh. injection Hh as <-.
  simpl run_handler in Hrun.
  apply destroy_success in Hrun as (instance & db1 & Hobj & _ & _ & -> & _).
  pose proof (get_object_Returns_select _ _ _ _ _ _ Hobj) as Hselect.
  apply get_object_Returns in Hobj as (_ & Hpk & qs & Hqs & _).
  rewrite dispatch_run, Hperm, Hdelete, handler_detail_DELETE. simpl run_handler.
  rewrite destroy_run, get_object_run, Hqs, Hselect.
  rewrite evaluate_absent; [done|].
  apply get_queryset_Returns in Hqs as (_ & u & _ & ->). simpl.
  rewrite view_model_detail, table_without, Hpk. apply lookup_delete_eq.
Qed.

Lemma X9_witness :
  let request := mkRequest DELETE (User 10) 1 None in
  method request = DELETE ∧
  is_success 204 = true ∧
  ∃ db',
    dispatch Demo.project CourseDetail request Demo.db
      = (Returns (mkResponse 204 NoBody []), db') ∧
    dispatch Demo.project CourseDetail request db'
      = (Returns (mkResponse 404 (Detail "Not found.") []), db').
Proof.
  intros request. split; [reflexivity|]. split; [reflexivity|].
  eexists. split; [apply CourseDetail_delete_by_lecturer|].
  exact (X9_second_delete_is_not_found Demo.project Course request Demo.db _ _
           eq_refl CourseDetail_delete_by_lecturer eq_refl).
Defined.

Lemma list_complete
    (P : Project) (m : Model) (u : Z) (request : Request) (db : Database) :
  method request = GET →
  user request = User u →
  permitted P (list_view m) request = true →
  db_fails P Select = false →
  ∃ items,
    dispatch P (list_view m) request db =
      (Returns (mkResponse HTTP_200_OK (Listing items) []), db) ∧
    NoDup items.*1 ∧
    ∀ pk, pk ∈ items.*1 ↔ in_scope db u m pk.
Proof.
  intros Hget Hu Hperm Hselect.
  rewrite dispatch_run, Hperm, Hget, handler_list_GET. simpl run_handler.
  rewrite list_run, (get_queryset_user _ _ u) by auto using list_view_resolves.
  rewrite Hselect. eexists. split; [reflexivity|]. split.
  - rewrite <- list_fmap_compose.
    apply (NoDup_fst_map_to_list
             (evaluate (mkQuerySet (view_model (list_view m))
                          (lookup_path (list_view m)) u) db)).
  - intros pk.
    pose proof (shows_listing
                  (to_representation P (serializer_class (list_view m)) db)
                  (evaluate (mkQuerySet (view_model (list_view m))
                               (lookup_path (list_view m)) u) db) pk) as Hshows.
    simpl in Hshows. rewrite Hshows.
    rewrite evaluate_in_scope by apply list_view_resolves.
    by rewrite view_model_list.
Qed.

(** X10. A [GET] on a list view by an authenticated caller who may read,
    on a backend that answers, is answered 200 with exactly the rows of the
    caller's scope, each once: the views set no pagination and no further
    filter. *)
Theorem X10_list_shows_the_whole_scope
    (P : Project) (m : Model) (u : Z) (request : Request) (db : Database) :
  method request = GET →
  user request = User u →
  permitted P (list_view m) request = true →
  db_fails P Select = false →
  ∃ items,
    dispatch P (list_view m) request db =
      (Returns (mkResponse HTTP_200_OK (Listing items) []), db) ∧
    NoDup items.*1 ∧
    ∀ pk, pk ∈ items.*1 ↔ in_scope db u m pk.
Proof. apply list_complete. Qed.

Lemma X10_witness :
  let request := mkRequest GET (User 10) 0 None in
  method request = GET ∧ user request = User 10 ∧
  permitted Demo.project (list_view Lecture) request = true ∧
  db_fails Demo.project Select = false ∧
  in_scope Demo.db 10 Lecture 1.
Proof.
  intros request. do 4 (split; [reflexivity|]).
  destruct (X10_list_shows_the_whole_scope Demo.project Lecture 10 request Demo.db
              eq_refl eq_refl eq_refl eq_refl) as (items & Hrun & _ & Hitems).
  apply Hitems.
  change (dispatch Demo.project (list_view Lecture) request Demo.db)
    with (dispatch Demo.project LectureList (mkRequest GET (User 10) 0 None) Demo.db)
    in Hrun.
  rewrite LectureList_for_member in Hrun. injection Hrun as <-.
  simpl. constructor.
Defined.

(** X11. For courses, lectures, tasks and task-control records the list
    view and the detail view filter alike, so what the list shows a caller
    the detail view finds for that caller: a [DELETE] on a listed row, by a
    caller who may delete, on a backend that answers and with referencing
    rows that can be handled, is answered 204 and removes the row. *)
Theorem X11_a_listed_row_can_be_deleted
    (P : Project) (m : Model) (u : Z) (listing request : Request) (db db1 : Database)
    (out : Result Response) (db0 : Database) (response : Response) :
  m ≠ TaskComments →
  method listing = GET →
  user listing = User u →
  dispatch P (list_view m) listing db = (out, db0) →
  out = Returns response →
  shows (body response) (kwargs_pk request) →
  method request = DELETE →
  user request = User u →
  permitted P (detail_view m) request = true →
  db_fails P Select = false →
  db_fails P Delete = false →
  collect P m (kwargs_pk request) db = Returns db1 →
  dispatch P (detail_view m) request db =
    (Returns (mkResponse HTTP_204_NO_CONTENT NoBody []),
     without m (kwargs_pk request) db1) ∧
  table m (without m (kwargs_pk request) db1) !! kwargs_pk request = None.
Proof.
  intros Hm Hget Hu Hlist Hout Hshows Hdelete Hu' Hperm Hselect Hdel Hcollect.
  destruct (list_scoped P m u listing db out db0 Hget Hu Hlist) as [_ Hscope].
  split.
  - eapply destroy_in_scope_succeeds; try done. by eapply Hscope.
  - rewrite table_without. apply lookup_delete_eq.
Qed.

Lemma X11_witness :
  let listing := mkRequest GET (User 10) 0 None in
  let request := mkRequest DELETE (User 10) 1 None in
  Lecture ≠ TaskComments ∧
  method listing = GET ∧ user listing = User 10 ∧
  shows (Listing [(1, {[ "name" := "Sequents"; "url" := "/lectures/1" ]})])
    (kwargs_pk request) ∧
  method request = DELETE ∧ user request = User 10 ∧
  permitted Demo.project (detail_view Lecture) request = true ∧
  db_fails Demo.project Select = false ∧
  db_fails Demo.project Delete = false ∧
  collect Demo.project Lecture (kwargs_pk request) Demo.db = Returns Demo.db ∧
  dispatch Demo.project (detail_view Lecture) request Demo.db =
    (Returns (mkResponse HTTP_204_NO_CONTENT NoBody []), without Lecture 1 Demo.db).
Proof.
  intros listing request.
  assert (Lecture ≠ TaskComments) as Hm by discriminate.
  assert (shows (Listing [(1, {[ "name" := "Sequents"; "url" := "/lectures/1" ]})])
            (kwargs_pk request)) as Hshows by (simpl; constructor).
  split; [exact Hm|]. do 2 (split; [reflexivity|]). split; [exact Hshows|].
  do 6 (split; [reflexivity|]).
  exact (proj1 (X11_a_listed_row_can_be_deleted Demo.project Lecture 10 listing request
                  Demo.db Demo.db _ _ _ Hm eq_refl eq_refl LectureList_for_member
                  eq_refl Hshows eq_refl eq_refl eq_refl eq_refl eq_refl eq_refl)).
Defined.

(** ** Creating outside one's courses *)

Lemma Meta_model_list_view m :
  m ∈ [Lecture; LectureTask; TaskControl] →
  Meta_model (serializer_class (list_view m)) = m ∧
  handler (list_view m) POST = Some create_mixin.
Proof.
  rewrite !elem_of_cons, elem_of_nil.
  intros [->|[->|[->|[]]]]; by split.
Qed.

(** X12. Creating is not scoped by membership while listing is: after a
    [POST] on the lecture, task or task-control list that succeeded, the row
    built from the payload is stored under the next key of the sequence of
    the model, and a [GET] on that list by a caller shows the new row
    exactly when the chain of the new row reaches a course of that caller.
    A row created under someone else's course is stored and answered 201,
    yet its creator does not see it listed. *)
Theorem X12_created_row_is_listed_iff_it_reaches_a_member_course
    (P : Project) (m : Model) (u : Z) (request request' : Request) (db : Database)
    (response : Response) (db' : Database) :
  m ∈ [Lecture; LectureTask; TaskControl] →
  method request = POST →
  dispatch P (list_view m) request db = (Returns response, db') →
  is_success (status_code response) = true →
  method request' = GET →
  user request' = User u →
  permitted P (list_view m) request' = true →
  db_fails P Select = false →
  let pk := next_pk m db in
  let r := serializer_create P (serializer_class (list_view m)) (payload request) in
  table m db !! pk = None ∧
  table m db' !! pk = Some r ∧
  ∃ items,
    dispatch P (list_view m) request' db' =
      (Returns (mkResponse HTTP_200_OK (Listing items) []), db') ∧
    (pk ∈ items.*1 ↔ reaches_member db' u m pk r).
Proof.
  intros Hm Hpost Hrun Hsuccess Hget Hu Hperm Hselect.
  destruct (Meta_model_list_view m Hm) as [Hmodel Hcreate].
  apply success_inv in Hrun as (_ & h & Hh & Hrun); [|done].
  rewrite Hpost, Hcreate in Hh. injection Hh as <-. simpl run_handler in Hrun.
  apply create_success in Hrun as (data & Hdata & _ & _ & Hfresh & -> & _).
  apply request_data_payload in Hdata as ->.
  rewrite Hmodel in *. cbv zeta.
  destruct (list_complete P m u request' (with_new m (serializer_create P
              (serializer_class (list_view m)) (payload request)) db)
              Hget Hu Hperm Hselect)
    as (items & Hlist & _ & Hitems).
  assert (table m (with_new m (serializer_create P (serializer_class (list_view m))
                                 (payload request)) db) !! next_pk m db
          = Some (serializer_create P (serializer_class (list_view m))
                    (payload request)))
    as Hrow by (rewrite table_with_new; apply lookup_insert_eq).
  split; [exact Hfresh|]. split; [exact Hrow|].
  exists items. split; [exact Hlist|].
  rewrite Hitems. unfold in_scope. split.
  - intros (r & Hr & Hreach). rewrite Hrow in Hr. by injection Hr as <-.
  - intros Hreach. by eexists.
Qed.

Example LectureList_post_under_foreign_course :
  dispatch Demo.project LectureList
    (mkRequest POST (User 10) 0 (Demo.json {[ "name" := "Rings"; "parent" := "2" ]}))
    Demo.db =
  (Returns
     (mkResponse 201 (Instance 3 {[ "name" := "Rings"; "url" := "/lectures/3" ]})
        [("Location", "/lectures/3")]),
   with_new Lecture (Demo.named (Some 2) "Rings") Demo.db).
Proof. vm_compute. reflexivity. Qed.

Example LectureList_after_foreign_post :
  dispatch Demo.project LectureList (mkRequest GET (User 10) 0 None)
    (with_new Lecture (Demo.named (Some 2) "Rings") Demo.db) =
  (Returns
     (mkResponse 200 (Listing [(1, {[ "name" := "Sequents"; "url" := "/lectures/1" ]})])
        []),
   with_new Lecture (Demo.named (Some 2) "Rings") Demo.db).
Proof. vm_compute. reflexivity. Qed.

Lemma X12_witness :
  let request :=
    mkRequest POST (User 10) 0 (Demo.json {[ "name" := "Rings"; "parent" := "2" ]}) in
  let request' := mkRequest GET (User 10) 0 None in
  let db' := with_new Lecture (Demo.named (Some 2) "Rings") Demo.db in
  Lecture ∈ [Lecture; LectureTask; TaskControl] ∧
  method request = POST ∧
  is_success 201 = true ∧
  method request' = GET ∧ user request' = User 10 ∧
  permitted Demo.project (list_view Lecture) request' = true ∧
  db_fails Demo.project Select = false ∧
  lecture_table db' !! 3 = Some (Demo.named (Some 2) "Rings") ∧
  ¬ reaches_member db' 10 Lecture 3 (Demo.named (Some 2) "Rings").
Proof.
  intros request request' db'.
  assert (Lecture ∈ [Lecture; LectureTask; TaskControl]) as Hm by constructor.
  split; [exact Hm|]. do 6 (split; [reflexivity|]).
  destruct (X12_created_row_is_listed_iff_it_reaches_a_member_course Demo.project
              Lecture 10 request request' Demo.db _ _ Hm eq_refl
              LectureList_post_under_foreign_course eq_refl
              eq_refl eq_refl eq_refl eq_refl)
    as (_ & Hrow & items & Hlist & Hlisted).
  split; [exact Hrow|].
  change (dispatch Demo.project (list_view Lecture) request'
            (with_new Lecture (Demo.named (Some 2) "Rings") Demo.db))
    with (dispatch Demo.project LectureList (mkRequest GET (User 10) 0 None)
            (with_new Lecture (Demo.named (Some 2) "Rings") Demo.db)) in Hlist.
  rewrite LectureList_after_foreign_post in Hlist. injection Hlist as <-.
  intros Hreach. apply Hlisted in Hreach. simpl in Hreach.
  apply list_elem_of_singleton in Hreach. vm_compute in Hreach. discriminate.
Defined.

(** ** Updating a lecture *)

(** X13. The lecture detail view parses multipart bodies only, so a [PUT]
    on it succeeds only with a multipart body or none: with any other media
    type the request does not succeed and the store stays as it is. *)
Theorem X13_lecture_update_takes_multipart_only
    (P : Project) (request : Request) (db : Database)
    (out : Result Response) (db' : Database) (media : MediaType) (fields : Data) :
  method request = PUT →
  content request = Some (media, fields) →
  media ≠ multipart_form_data →
  dispatch P LectureDetail request db = (out, db') →
  db' = db ∧
  ∀ response, out = Returns response → is_success (status_code response) = false.
Proof.
  intros Hput Hcontent Hmedia.
  assert (request_data P LectureDetail request = Raises (UnsupportedMediaType media))
    as Hdata.
  { unfold request_data. rewrite Hcontent. simpl.
    rewrite bool_decide_eq_false_2; [done|].
    rewrite list_elem_of_singleton. congruence. }
  change LectureDetail with (detail_view Lecture) at 1.
  rewrite dispatch_run, Hput, handler_detail_PUT.
  assert (∀ e, (handle_exception P e, db) = (out, db') →
               db' = db ∧
               ∀ response, out = Returns response →
                           is_success (status_code response) = false) as Hfails.
  { intros e Hrun. apply pair_equal_spec in Hrun as [<- <-]. split; [done|].
    intros response Hout. by apply handle_exception_not_success in Hout as [? _]. }
  destruct (permitted P (detail_view Lecture) request); [|apply Hfails].
  simpl run_handler. rewrite update_run, Hdata.
  destruct (get_object P LectureDetail request db) as [[instance|e] db1];
    apply Hfails.
Qed.

Lemma X13_witness :
  let request :=
    mkRequest PUT (User 10) 1 (Demo.json {[ "name" := "Sequent calculus" ]}) in
  method request = PUT ∧
  content request = Some (application_json, {[ "name" := "Sequent calculus" ]}) ∧
  application_json ≠ multipart_form_data ∧
  (dispatch Demo.project LectureDetail request Demo.db).2 = Demo.db.
Proof.
  intros request.
  assert (application_json ≠ multipart_form_data) as Hmedia by discriminate.
  split; [reflexivity|]. split; [reflexivity|]. split; [exact Hmedia|].
  exact (proj1 (X13_lecture_update_takes_multipart_only Demo.project request Demo.db
                  _ _ application_json {[ "name" := "Sequent calculus" ]}
                  eq_refl eq_refl Hmedia (surjective_pairing _))).
Defined.

(** ** Rows outside the caller's courses *)

Lemma get_object_outside_scope P m u request db :
  m ≠ TaskComments →
  user request = User u →
  db_fails P Select = false →
  ¬ in_scope db u m (kwargs_pk request) →
  get_object P (detail_view m) request db = (Raises Http404, db).
Proof.
  intros Hm Hu Hselect Hout.
  rewrite get_object_run.
  rewrite (get_queryset_user _ _ u) by auto using detail_view_resolves.
  rewrite Hselect.
  destruct (evaluate _ db !! kwargs_pk request) as [r|] eqn:Hr; [|done].
  exfalso. apply Hout. rewrite <- (view_model_detail m) at 1.
  apply evaluate_in_scope; [by apply detail_view_resolves|by eexists].
Qed.

(** X14. On the course, lecture, task and task-control detail views a row
    of someone else's course cannot be told from a missing one: for a caller
    who may use the verb, on a backend that answers, every [PUT] and
    [DELETE] (and the [GET] of the course detail view) that addresses, by a
    key within the range of the key column, a row outside the caller's scope
    is answered the same 404, whether the row is stored or not, and changes
    nothing. *)
Theorem X14_outside_scope_is_not_found
    (P : Project) (m : Model) (u : Z) (request : Request) (db : Database) :
  m ≠ TaskComments →
  method request = PUT ∨ method request = DELETE ∨
    (method request = GET ∧ m = Course) →
  user request = User u →
  key_in_range (kwargs_pk request) →
  permitted P (detail_view m) request = true →
  db_fails P Select = false →
  ¬ in_scope db u m (kwargs_pk request) →
  dispatch P (detail_view m) request db =
  (Returns (mkResponse HTTP_404_NOT_FOUND (Detail "Not found.") []), db).
Proof.
  intros Hm Hverb Hu _ Hperm Hselect Hout.
  pose proof (get_object_outside_scope P m u request db Hm Hu Hselect Hout) as Hobj.
  rewrite dispatch_run, Hperm.
  destruct Hverb as [Hput|[Hdelete|[Hget ->]]].
  - rewrite Hput, handler_detail_PUT. simpl run_handler.
    by rewrite update_run, Hobj.
  - rewrite Hdelete, handler_detail_DELETE. simpl run_handler.
    by rewrite destroy_run, Hobj.
  - rewrite Hget. simpl. change (detail_view Course) with CourseDetail in Hobj.
    by rewrite retrieve_run, Hobj.
Qed.

Example outsider_is_out_of_scope : ¬ in_scope Demo.db 20 TaskControl 1.
Proof.
  intros (r & _ & c & _ & Hmember).
  change (course_users Demo.db)
    with ({[ (1, 10) ]} ∪ {[ (2, 30) ]} : gset (Z * Z)) in Hmember.
  rewrite elem_of_union, !elem_of_singleton in Hmember.
  destruct Hmember as [Hpair|Hpair]; discriminate.
Qed.

Lemma X14_witness :
  let request := mkRequest DELETE (User 20) 1 None in
  TaskControl ≠ TaskComments ∧
  (method request = PUT ∨ method request = DELETE ∨
     (method request = GET ∧ TaskControl = Course)) ∧
  user request = User 20 ∧
  key_in_range (kwargs_pk request) ∧
  permitted Demo.project (detail_view TaskControl) request = true ∧
  db_fails Demo.project Select = false ∧
  is_Some (taskcontrol_table Demo.db !! kwargs_pk request) ∧
  ¬ in_scope Demo.db 20 TaskControl (kwargs_pk request) ∧
  dispatch Demo.project (detail_view TaskControl) request Demo.db =
  (Returns (mkResponse HTTP_404_NOT_FOUND (Detail "Not found.") []), Demo.db).
Proof.
  intros request.
  assert (TaskControl ≠ TaskComments) as Hm by discriminate.
  assert (method request = PUT ∨ method request = DELETE ∨
            (method request = GET ∧ TaskControl = Course)) as Hverb
    by (right; left; reflexivity).
  assert (key_in_range (kwargs_pk request)) as Hrange
    by (unfold key_in_range; simpl; lia).
  split; [exact Hm|]. split; [exact Hverb|]. split; [reflexivity|].
  split; [exact Hrange|]. do 2 (split; [reflexivity|]).
  split; [by eexists|].
  split; [exact outsider_is_out_of_scope|].
  exact (X14_outside_scope_is_not_found Demo.project TaskControl 20 request Demo.db
           Hm Hverb eq_refl Hrange eq_refl eq_refl outsider_is_out_of_scope).
Defined.
